(** * AD9910 DDS channel driver on Urukul: a shallow embedding

    The model follows [artiq/coredevice/ad9910.py].  The driver's methods are
    ARTIQ kernels: integers are 32-bit two's complement ([int32]) and their
    arithmetic wraps around, time stamps are 64-bit ([int64]); both are
    modelled as [Z] with the wrap-around written out at every operation that
    can leave the range ([+], [-], [*], [<<]).  Every call the driver makes
    into a collaborator that is not part of the file (the SPI bus, the CPLD,
    the IO_UPDATE TTL line) is recorded as a time-stamped event; what such a
    call returns and how far it advances the time cursor is left to an
    [External] world.  The constructor runs on the host, on binary64
    floats. *)

From Stdlib Require Import ZArith List Lia Bool String Floats.
Import ListNotations.
Open Scope Z_scope.

(** ** Machine integers *)

Module Int.

(** Two's complement reduction of [z] to [w] bits. *)
Definition wrap (w z : Z) : Z := (z + 2 ^ (w - 1)) mod 2 ^ w - 2 ^ (w - 1).

Definition int32 (z : Z) : Z := wrap 32 z.
Definition int64 (z : Z) : Z := wrap 64 z.

Definition add32 (a b : Z) : Z := int32 (a + b).
Definition sub32 (a b : Z) : Z := int32 (a - b).
Definition mul32 (a b : Z) : Z := int32 (a * b).
Definition neg32 (a : Z) : Z := int32 (- a).
Definition shl32 (a n : Z) : Z := int32 (Z.shiftl a n).

Definition add64 (a b : Z) : Z := int64 (a + b).

End Int.
Import Int.

(** ** Constants of the module *)

Definition _PHASE_MODE_DEFAULT : Z := -1.
Definition PHASE_MODE_CONTINUOUS : Z := 0.
Definition PHASE_MODE_ABSOLUTE : Z := 1.
Definition PHASE_MODE_TRACKING : Z := 2.

Definition _AD9910_REG_CFR1 : Z := 0x00.
Definition _AD9910_REG_CFR2 : Z := 0x01.
Definition _AD9910_REG_CFR3 : Z := 0x02.
Definition _AD9910_REG_AUX_DAC : Z := 0x03.
Definition _AD9910_REG_IO_UPD : Z := 0x04.
Definition _AD9910_REG_FTW : Z := 0x07.
Definition _AD9910_REG_POW : Z := 0x08.
Definition _AD9910_REG_ASF : Z := 0x09.
Definition _AD9910_REG_MSYNC : Z := 0x0A.
Definition _AD9910_REG_DRAMPL : Z := 0x0B.
Definition _AD9910_REG_DRAMPS : Z := 0x0C.
Definition _AD9910_REG_DRAMPR : Z := 0x0D.
Definition _AD9910_REG_PR0 : Z := 0x0E.

(** ** Events, exceptions and the timeline *)

(** The calls that leave the driver. *)
Inductive event : Type :=
| SetConfigMu (flags length div cs : Z)   (* self.bus.set_config_mu(...) *)
| BusWrite (data : Z)                     (* self.bus.write(data) *)
| BusRead                                 (* self.bus.read() *)
| PulseMu (duration : Z)                  (* self.cpld.io_update.pulse_mu(d) *)
| Pulse (duration_us : Z)                 (* self.cpld.io_update.pulse(d*us) *)
| StaRead.                                (* self.cpld.sta_read() *)

Inductive exn : Type :=
| AssertionError
| ValueError (msg : String.string)
| ZeroDivisionError
| OverflowError.

(** The time cursor and the events issued so far, newest first, each with
    the value of the cursor when it was issued. *)
Record rtio : Type := mkRtio { now : Z; trace : list (Z * event) }.

(** What the driver does not define itself. *)
Record External : Type := mkExternal {
  (* constants of urukul.py and spi2.py *)
  SPI_CONFIG : Z;
  SPI_END : Z;
  SPI_INPUT : Z;
  SPIT_DDS_WR : Z;
  SPIT_DDS_RD : Z;
  urukul_sta_pll_lock : Z -> Z;
  urukul_sta_smp_err : Z -> Z;
  (* the value a call returns and the time it takes, given the history whose
     head is the call itself *)
  op_value : list (Z * event) -> Z;
  op_duration : list (Z * event) -> Z;
  (* core.seconds_to_mu, on a duration given in microseconds *)
  us_to_mu : Z -> Z;
  (* self.cpld.refclk and self.core.ref_period *)
  refclk : float;
  ref_period : float
}.

(** Computations: a state transformer that may raise. *)
Definition M (A : Type) : Type := rtio -> (exn + A) * rtio.

Definition ret {A} (a : A) : M A := fun s => (inr a, s).

Definition raise {A} (e : exn) : M A := fun s => (inl e, s).

Definition bind {A B} (m : M A) (k : A -> M B) : M B :=
  fun s => match m s with
           | (inl e, s') => (inl e, s')
           | (inr a, s') => k a s'
           end.

Notation "x <- m ;; k" := (bind m (fun x => k))
  (at level 61, m at next level, right associativity).
Notation "m ;; k" := (bind m (fun _ => k))
  (at level 61, right associativity).

(** artiq.language.core *)
Definition now_mu : M Z := fun s => (inr (now s), s).
Definition at_mu (t : Z) : M unit := fun s => (inr tt, mkRtio t (trace s)).
Definition delay_mu (d : Z) : M unit :=
  fun s => (inr tt, mkRtio (add64 (now s) d) (trace s)).

(** ** The channel object *)

Record AD9910 : Type := mkAD9910 {
  chip_select : Z;
  pll_n : Z;
  pll_cp : Z;
  pll_vco : Z;
  ftw_per_hz : float;
  sysclk_per_mu : Z;
  sync_delay_seed : Z;
  io_update_delay : Z;
  phase_mode : Z
}.

Definition set_phase_mode (self : AD9910) (mode : Z) : AD9910 :=
  mkAD9910 (chip_select self) (pll_n self) (pll_cp self) (pll_vco self)
           (ftw_per_hz self) (sysclk_per_mu self) (sync_delay_seed self)
           (io_update_delay self) mode.

(** ** Python operations that may raise *)

Definition assert (b : bool) : M unit :=
  if b then ret tt else raise AssertionError.

(** [a >> n]: a negative shift count is an error. *)
Definition rshift (a n : Z) : M Z :=
  if n <? 0 then raise (ValueError "negative shift count"%string)
  else ret (Z.shiftr a n).

(** [range(n)] *)
Definition range (n : Z) : list Z := map Z.of_nat (seq 0 (Z.to_nat n)).

(** [for i in l: body], where the body either falls through to the next
    iteration ([None], also on [continue]) or returns from the enclosing
    function ([Some v]). *)
Fixpoint for_ {R} (l : list Z) (body : Z -> M (option R)) : M (option R) :=
  match l with
  | [] => ret None
  | i :: l' =>
      r <- body i ;;
      match r with
      | Some v => ret (Some v)
      | None => for_ l' body
      end
  end.

(** A pure operation that may raise, as a computation. *)
Definition lift {A} (r : exn + A) : M A :=
  match r with
  | inl e => raise e
  | inr a => ret a
  end.

(** Floats: [int(round(x))], round half to even; infinities and NaN raise. *)
Definition int_round (x : float) : exn + Z :=
  match Prim2SF x with
  | S754_zero _ => inr 0
  | S754_infinity _ => inl OverflowError
  | S754_nan => inl (ValueError "cannot convert float NaN to integer"%string)
  | S754_finite sg m e =>
      let m := Z.pos m in
      let n :=
        if 0 <=? e then m * 2 ^ e
        else
          let d := 2 ^ (- e) in
          let q := m / d in
          let r := m mod d in
          if 2 * r <? d then q
          else if d <? 2 * r then q + 1
          else if Z.even q then q else q + 1 in
      inr (if sg then - n else n)
  end.

(** [n == x] for an integer [n] and a float [x]: the comparison is exact. *)
Definition int_eq_float (n : Z) (x : float) : bool :=
  match Prim2SF x with
  | S754_zero _ => n =? 0
  | S754_infinity _ => false
  | S754_nan => false
  | S754_finite sg m e =>
      let m := if sg then Z.neg m else Z.pos m in
      if 0 <=? e then n =? m * 2 ^ e else n * 2 ^ (- e) =? m
  end.

(** [float(n)] for an integer that a float holds exactly. *)
Definition float_of_int (n : Z) : float :=
  if n <? 0 then (- PrimFloat.of_uint63 (Uint63.of_Z (- n)))%float
  else PrimFloat.of_uint63 (Uint63.of_Z n).

(** [a / b] on floats. *)
Definition truediv (a b : float) : exn + float :=
  if (b =? 0)%float then inl ZeroDivisionError else inr (a / b)%float.

Section Driver.

Variable W : External.

Definition delay_us (d : Z) : M unit := delay_mu (us_to_mu W d).

(** A call into a collaborator: it is appended to the trace, the world
    decides its result and how far it moves the cursor. *)
Definition external (ev : event) : M Z :=
  fun s => let h := (now s, ev) :: trace s in
           (inr (op_value W h), mkRtio (add64 (now s) (op_duration W h)) h).

(** ** Register access *)

Definition write32 (self : AD9910) (addr data : Z) : M unit :=
  external (SetConfigMu (SPI_CONFIG W) 8 (SPIT_DDS_WR W) (chip_select self)) ;;
  external (BusWrite (shl32 addr 24)) ;;
  external (SetConfigMu (Z.lor (SPI_CONFIG W) (SPI_END W)) 32
                        (SPIT_DDS_WR W) (chip_select self)) ;;
  external (BusWrite data) ;;
  ret tt.

Definition read32 (self : AD9910) (addr : Z) : M Z :=
  external (SetConfigMu (SPI_CONFIG W) 8 (SPIT_DDS_WR W) (chip_select self)) ;;
  external (BusWrite (shl32 (Z.lor addr 0x80) 24)) ;;
  external (SetConfigMu (Z.lor (Z.lor (SPI_CONFIG W) (SPI_END W)) (SPI_INPUT W))
                        32 (SPIT_DDS_RD W) (chip_select self)) ;;
  external (BusWrite 0) ;;
  external BusRead.

Definition write64 (self : AD9910) (addr data_high data_low : Z) : M unit :=
  external (SetConfigMu (SPI_CONFIG W) 8 (SPIT_DDS_WR W) (chip_select self)) ;;
  external (BusWrite (shl32 addr 24)) ;;
  external (SetConfigMu (SPI_CONFIG W) 32 (SPIT_DDS_WR W) (chip_select self)) ;;
  external (BusWrite data_high) ;;
  external (SetConfigMu (Z.lor (SPI_CONFIG W) (SPI_END W)) 32
                        (SPIT_DDS_WR W) (chip_select self)) ;;
  external (BusWrite data_low) ;;
  ret tt.

(** ** Profile 0 in machine units *)

Definition set_mu (self : AD9910) (ftw pow asf phase_mode' ref_time : Z) : M Z :=
  let phase_mode' :=
    if phase_mode' =? _PHASE_MODE_DEFAULT then phase_mode self
    else phase_mode' in
  t <- now_mu ;;
  at_mu (Z.land t (Z.lnot 0xf)) ;;
  pow <- (if negb (phase_mode' =? PHASE_MODE_CONTINUOUS) then
            write32 self _AD9910_REG_CFR1 0x00002002 ;;
            let ref_time :=
              if (phase_mode' =? PHASE_MODE_TRACKING) && (ref_time <? 0)
              then 0 else ref_time in
            if ref_time >=? 0 then
              t <- now_mu ;;
              let dt := sub32 (int32 t) (int32 ref_time) in
              ret (add32 pow
                     (Z.shiftr (mul32 (mul32 dt ftw) (sysclk_per_mu self)) 16))
            else ret pow
          else ret pow) ;;
  write64 self _AD9910_REG_PR0 (Z.lor (shl32 asf 16) pow) ftw ;;
  delay_mu (int64 (io_update_delay self)) ;;
  external (PulseMu 8) ;;
  t <- now_mu ;;
  at_mu (Z.land t (Z.lnot 0xf)) ;;
  (if negb (phase_mode' =? PHASE_MODE_CONTINUOUS) then
     write32 self _AD9910_REG_CFR1 0x00000002
   else ret tt) ;;
  ret pow.

(** ** SYNC_IN delay tuning *)

Definition set_sync (self : AD9910) (in_delay window : Z) : M unit :=
  write32 self _AD9910_REG_MSYNC
    (Z.lor (Z.lor (Z.lor (Z.lor (Z.lor (Z.lor
       (shl32 window 28)      (* SYNC S/H validation delay *)
       (shl32 1 27))          (* SYNC receiver enable *)
       (shl32 0 26))          (* SYNC generator disable *)
       (shl32 0 25))          (* SYNC generator SYS rising edge *)
       (shl32 0 18))          (* SYNC preset *)
       (shl32 0 11))          (* SYNC output delay *)
       (shl32 in_delay 3)).   (* SYNC receiver delay *)

Definition clear_smp_err (self : AD9910) : M unit :=
  write32 self _AD9910_REG_CFR2 0x01010020 ;;   (* clear SMP_ERR *)
  external (Pulse 1) ;;
  write32 self _AD9910_REG_CFR2 0x01010000 ;;   (* enable SMP_ERR *)
  external (Pulse 1) ;;
  ret tt.

Definition tune_sync_delay (self : AD9910) (sync_delay_seed : Z) : M (Z * Z) :=
  let dt := 14 in
  let max_delay := dt in
  let max_window := add32 (dt / 4) 1 in
  let min_window := 1 in
  r <- for_ (range (add32 (sub32 max_window min_window) 1)) (fun window =>
    let window := sub32 max_window window in
    for_ (range max_delay) (fun in_delay =>
      (* alternate search direction around seed_delay *)
      let in_delay :=
        if negb (Z.land in_delay 1 =? 0) then neg32 in_delay else in_delay in
      let in_delay := add32 sync_delay_seed (Z.shiftr in_delay 1) in
      if (in_delay <? 0) || (in_delay >? 31) then ret None
      else
        set_sync self in_delay window ;;
        clear_smp_err self ;;
        sta <- external StaRead ;;
        let err := urukul_sta_smp_err W sta in
        delay_us 40 ;;
        flag <- rshift err (sub32 (chip_select self) 4) ;;
        if Z.land flag 1 =? 0 then
          let window := sub32 window min_window in   (* add margin *)
          set_sync self in_delay window ;;
          clear_smp_err self ;;
          delay_us 40 ;;
          ret (Some (in_delay, window))
        else ret None)) ;;
  match r with
  | Some v => ret v
  | None => raise (ValueError "no valid window/delay"%string)
  end.

(** ** IO_UPDATE alignment *)

Definition measure_io_update_alignment (self : AD9910) (io_up_delay : Z) : M Z :=
  write32 self _AD9910_REG_CFR1 0x0000c002 ;;
  write32 self _AD9910_REG_CFR2 0x01090000 ;;
  write64 self _AD9910_REG_DRAMPL (-1) 0 ;;
  write32 self _AD9910_REG_DRAMPR 0x00010000 ;;
  write64 self _AD9910_REG_DRAMPS (-1) 0 ;;
  t <- now_mu ;;
  at_mu (Z.land (add64 t 0x10) (Z.lnot 0xf)) ;;
  external (PulseMu 8) ;;
  write32 self _AD9910_REG_CFR1 0x00000002 ;;
  write64 self _AD9910_REG_DRAMPS 0 0 ;;
  t <- now_mu ;;
  at_mu (add64 (Z.land (add64 t 0x10) (Z.lnot 0xf)) io_up_delay) ;;
  external (PulseMu (sub32 32 io_up_delay)) ;;
  ftw <- read32 self _AD9910_REG_FTW ;;
  delay_us 100 ;;
  write32 self _AD9910_REG_CFR2 0x01010000 ;;
  external (PulseMu 8) ;;
  ret (Z.land ftw 1).

Definition tune_io_update_delay (self : AD9910) : M Z :=
  let period := 4 in
  let max_delay := 8 in
  let d0 := io_update_delay self in
  t0 <- measure_io_update_alignment self d0 ;;
  let t0 := int32 t0 in
  r <- for_ (range (sub32 max_delay 1)) (fun i =>
    t <- measure_io_update_alignment self
           (Z.land (add32 (add32 d0 i) 1) (sub32 max_delay 1)) ;;
    if negb (t =? t0) then
      ret (Some (Z.land (add32 (add32 d0 i) (period / 2)) (sub32 period 1)))
    else ret None) ;;
  match r with
  | Some v => ret v
  | None => raise (ValueError "no IO_UPDATE-SYNC_CLK alignment edge found"%string)
  end.

(** ** Construction *)

(** The VCO ranges, in MHz, by [pll_vco]. *)
Definition vco_bands : list (Z * Z) :=
  [(370, 510); (420, 590); (500, 700); (600, 880); (700, 950); (820, 1150)].

(** The lookups in the device manager build host objects; the reference
    clock of the CPLD and the period of the core are read from them.  The
    checks are those of the source, in its order. *)
Definition __init__ (chip_select pll_n pll_cp pll_vco sync_delay_seed
                     io_update_delay : Z) : M AD9910 :=
  assert ((3 <=? chip_select) && (chip_select <=? 7)) ;;
  assert ((12 <=? pll_n) && (pll_n <=? 127)) ;;
  assert (refclk W / 4 <=? 60e6)%float ;;
  let sysclk := (refclk W * float_of_int pll_n / 4)%float in
  assert (sysclk <=? 1e9)%float ;;
  ftw_per_hz <- lift (truediv (float_of_int (Z.shiftl 1 32)) sysclk) ;;
  sysclk_per_mu <- lift (int_round (sysclk * ref_period W)%float) ;;
  assert (int_eq_float sysclk_per_mu (sysclk * ref_period W)%float) ;;
  assert ((0 <=? pll_vco) && (pll_vco <=? 5)) ;;
  let '(vco_min, vco_max) := nth (Z.to_nat pll_vco) vco_bands (0, 0) in
  assert ((float_of_int vco_min <=? sysclk / 1e6)%float
          && (sysclk / 1e6 <=? float_of_int vco_max)%float) ;;
  assert ((0 <=? pll_cp) && (pll_cp <=? 7)) ;;
  ret (mkAD9910 chip_select pll_n pll_cp pll_vco ftw_per_hz sysclk_per_mu
                sync_delay_seed io_update_delay PHASE_MODE_CONTINUOUS).

End Driver.

(** * Observations on a run *)

(** The events a computation adds to the history, oldest first. *)
Definition issued {A} (m : M A) (s : rtio) : list event :=
  let s' := snd (m s) in
  rev (firstn (List.length (trace s') - List.length (trace s))
              (map snd (trace s'))).

(** Register-level view of the bus traffic.  A register transaction opens
    with an 8-bit address phase (address byte in the top bits of the word,
    bit 7 of the byte set for a read); the 32-bit phases that follow carry its
    data words.  A pulse on IO_UPDATE is kept as [IoUpdate]. *)
Inductive regop : Type :=
| RegWrite (addr : Z) (words : list Z)
| RegRead (addr : Z)
| IoUpdate.

Definition mk_regop (a : Z) (words : list Z) : regop :=
  let addr := Z.land (Z.shiftr a 24) 0xff in
  if Z.testbit addr 7 then RegRead (Z.land addr 0x7f) else RegWrite addr words.

(** [len] is the width set by the latest [SetConfigMu]; the first component
    of the result holds the data words not yet attached to an address. *)
Fixpoint reg_ops_from (len : Z) (evs : list event) : list Z * list regop :=
  match evs with
  | [] => ([], [])
  | SetConfigMu _ l _ _ :: evs' => reg_ops_from l evs'
  | BusWrite d :: evs' =>
      let (ws, ops) := reg_ops_from len evs' in
      if len =? 8 then ([], mk_regop d ws :: ops) else (d :: ws, ops)
  | PulseMu _ :: evs' | Pulse _ :: evs' =>
      let (_, ops) := reg_ops_from len evs' in ([], IoUpdate :: ops)
  | BusRead :: evs' | StaRead :: evs' => reg_ops_from len evs'
  end.

Definition reg_ops (evs : list event) : list regop := snd (reg_ops_from 0 evs).

(** A CFR1 write, with the auto-clear phase accumulator bit (bit 13) set or
    clear. *)
Definition is_cfr1_write (op : regop) : bool :=
  match op with
  | RegWrite a [_] => a =? _AD9910_REG_CFR1
  | _ => false
  end.

Definition is_arm (op : regop) : bool :=
  match op with
  | RegWrite a [d] => (a =? _AD9910_REG_CFR1) && Z.testbit d 13
  | _ => false
  end.

Definition is_disarm (op : regop) : bool :=
  match op with
  | RegWrite a [d] => (a =? _AD9910_REG_CFR1) && negb (Z.testbit d 13)
  | _ => false
  end.

Definition is_io_update (op : regop) : bool :=
  match op with
  | IoUpdate => true
  | _ => false
  end.

Definition count {A} (p : A -> bool) (l : list A) : nat :=
  List.length (filter p l).

(** One arm write, later one disarm write, one update pulse in between, and
    no other CFR1 write anywhere. *)
Definition bracketed (ops : list regop) : Prop :=
  exists pre a mid d post,
    ops = pre ++ a :: mid ++ d :: post /\
    is_arm a = true /\ is_disarm d = true /\
    count is_io_update mid = 1%nat /\
    count is_cfr1_write (pre ++ mid ++ post) = 0%nat.

(** The phase mode a call of [set_mu] works with. *)
Definition effective_phase_mode (self : AD9910) (mode : Z) : Z :=
  if mode =? _PHASE_MODE_DEFAULT then phase_mode self else mode.

(** The cursor at the point where [set_mu] reads [now_mu()] for the phase
    correction: after the alignment and the arming write. *)
Definition update_time (W : External) (self : AD9910) (s : rtio) : Z :=
  now (snd ((t <- now_mu ;;
             at_mu (Z.land t (Z.lnot 0xf)) ;;
             write32 W self _AD9910_REG_CFR1 0x00002002) s)).

(** The fiducial time stamp used when the correction is computed. *)
Definition fiducial (ref_time : Z) : Z := if ref_time <? 0 then 0 else ref_time.

(** The events of the register writes. *)
Definition write32_events (W : External) (self : AD9910) (addr data : Z)
  : list event :=
  [SetConfigMu (SPI_CONFIG W) 8 (SPIT_DDS_WR W) (chip_select self);
   BusWrite (shl32 addr 24);
   SetConfigMu (Z.lor (SPI_CONFIG W) (SPI_END W)) 32 (SPIT_DDS_WR W)
               (chip_select self);
   BusWrite data].

Definition write64_events (W : External) (self : AD9910)
  (addr data_high data_low : Z) : list event :=
  [SetConfigMu (SPI_CONFIG W) 8 (SPIT_DDS_WR W) (chip_select self);
   BusWrite (shl32 addr 24);
   SetConfigMu (SPI_CONFIG W) 32 (SPIT_DDS_WR W) (chip_select self);
   BusWrite data_high;
   SetConfigMu (Z.lor (SPI_CONFIG W) (SPI_END W)) 32 (SPIT_DDS_WR W)
               (chip_select self);
   BusWrite data_low].

(** ** The SYNC_IN delay scan *)

(** The MSYNC word of [set_sync]. *)
Definition msync_word (in_delay window : Z) : Z :=
  Z.lor (Z.lor (Z.lor (Z.lor (Z.lor (Z.lor
    (shl32 window 28) (shl32 1 27)) (shl32 0 26)) (shl32 0 25)) (shl32 0 18))
    (shl32 0 11)) (shl32 in_delay 3).

Definition set_sync_events (W : External) (self : AD9910) (in_delay window : Z)
  : list event :=
  write32_events W self _AD9910_REG_MSYNC (msync_word in_delay window).

Definition clear_smp_err_events (W : External) (self : AD9910) : list event :=
  write32_events W self _AD9910_REG_CFR2 0x01010020 ++ [Pulse 1] ++
  write32_events W self _AD9910_REG_CFR2 0x01010000 ++ [Pulse 1].

(** One probe of the error flag of this channel at a (delay, window) pair. *)
Definition smp_err_probe (W : External) (self : AD9910) (in_delay window : Z)
  : M bool :=
  set_sync W self in_delay window ;;
  clear_smp_err W self ;;
  sta <- external W StaRead ;;
  ret (Z.testbit (urukul_sta_smp_err W sta) (chip_select self - 4)).

Definition probe_events (W : External) (self : AD9910) (in_delay window : Z)
  : list event :=
  set_sync_events W self in_delay window ++ clear_smp_err_events W self
  ++ [StaRead].

Definition reprogram_events (W : External) (self : AD9910)
  (in_delay window : Z) : list event :=
  set_sync_events W self in_delay window ++ clear_smp_err_events W self.

(** The delay tap tried at loop index [i]. *)
Definition tap_at (seed i : Z) : Z :=
  add32 seed (Z.shiftr (if negb (Z.land i 1 =? 0) then neg32 i else i) 1).

Definition out_of_range (d : Z) : bool := (d <? 0) || (d >? 31).

(** The order of the scan: windows from the widest down, and for each the
    taps outward from the seed, those outside the tap range left out. *)
Definition tap_offsets : list Z :=
  [0; -1; 1; -2; 2; -3; 3; -4; 4; -5; 5; -6; 6; -7].

Definition windows : list Z := [4; 3; 2; 1].

Definition taps (seed : Z) : list Z :=
  filter (fun d => negb (out_of_range d)) (map (Z.add seed) tap_offsets).

Definition scan_order (seed : Z) : list (Z * Z) :=
  flat_map (fun w => map (fun d => (d, w)) (taps seed)) windows.

(** A scan of the pairs [l] against an error function: the events it issues
    and what it returns at the first pair whose flag is clear. *)
Fixpoint scan (W : External) (self : AD9910) (err : Z -> Z -> bool)
  (l : list (Z * Z)) : list event * option (Z * Z) :=
  match l with
  | [] => ([], None)
  | (d, w) :: l' =>
      if err d w then
        let (evs, r) := scan W self err l' in (probe_events W self d w ++ evs, r)
      else
        (probe_events W self d w ++ reprogram_events W self d (w - 1),
         Some (d, w - 1))
  end.

(** The number of reads of the status register in the history. *)
Definition is_probe (ev : event) : bool :=
  match ev with
  | StaRead => true
  | _ => false
  end.

Definition probes (s : rtio) : nat := count is_probe (map snd (trace s)).

(** ** A test bench *)

Module Bench.

(** A world in which the reads are answered by [val]; a bus configuration
    takes 8 mu, a transfer 100 mu, a pulse its length. *)
Definition world (val : list (Z * event) -> Z) : External :=
  mkExternal 0x08 0x02 0x04 2 16
    (fun sta => Z.land (Z.shiftr sta 8) 0xf)
    (fun sta => Z.land (Z.shiftr sta 4) 0xf)
    val
    (fun h => match h with
              | (_, SetConfigMu _ _ _ _) :: _ => 8
              | (_, BusWrite _) :: _ => 100
              | (_, PulseMu d) :: _ => d
              | (_, Pulse d) :: _ => 1000 * d
              | _ => 0
              end)
    (fun d => 1000 * d)
    125e6%float
    (1 / 1e9)%float.

Definition quiet : External := world (fun _ => 0).

(** The alignment indicator is [b] for delays in [0,k) and [1-b] in [k,4),
    with period 4: the read that follows the realign pulse of length
    [32 - delay] answers with it. *)
Definition edge (k b : Z) : External :=
  world (fun h => match h with
                  | (_, BusRead) :: _ :: _ :: _ :: _ :: (_, PulseMu p) :: _ =>
                      if (32 - p) mod 4 <? k then b else 1 - b
                  | _ => 0
                  end).

(** SMP_ERR of channel 0 is asserted at every read of the status. *)
Definition noisy : External := world (fun _ => 0x10).

(** SMP_ERR of channel 0 is clear only for delay taps in [lo, hi] at a window
    of at most [wmax]; the pair is read back from the MSYNC word written
    before the read of the status. *)
Definition valley (lo hi wmax : Z) : External :=
  world (fun h => match nth_error h 11 with
                  | Some (_, BusWrite m) =>
                      let d := Z.land (Z.shiftr m 3) 0x1f in
                      let w := Z.land (Z.shiftr m 28) 0xf in
                      if (lo <=? d) && (d <=? hi) && (w <=? wmax) then 0
                      else 0x10
                  | _ => 0x10
                  end).

Definition valley_err (lo hi wmax d w : Z) : bool :=
  negb ((lo <=? d) && (d <=? hi) && (w <=? wmax)).

Definition channel : AD9910 :=
  mkAD9910 4 32 7 5 (float_of_int (Z.shiftl 1 32) / 1e9)%float 1 (-1) 0
           PHASE_MODE_CONTINUOUS.

Definition start : rtio := mkRtio 1000 [].

End Bench.

(** ** Construction *)

(** The system clock the constructor computes. *)
Definition sysclk_of (W : External) (pll_n : Z) : float :=
  (refclk W * float_of_int pll_n / 4)%float.

(** The system clock, in MHz, lies in the band selected by [pll_vco]. *)
Definition in_band (pll_vco : Z) (sysclk : float) : bool :=
  (0 <=? pll_vco) && (pll_vco <=? 5) &&
  (let '(vco_min, vco_max) := nth (Z.to_nat pll_vco) vco_bands (0, 0) in
   (float_of_int vco_min <=? sysclk / 1e6)%float
   && (sysclk / 1e6 <=? float_of_int vco_max)%float).

(** The number of system clock ticks per machine unit is an integer. *)
Definition exact_ticks (x : float) : bool :=
  match int_round x with
  | inr n => int_eq_float n x
  | inl _ => false
  end.

(** ** Searches *)

(** The first result that a search over [l] finds. *)
Fixpoint first_some {A R} (f : A -> option R) (l : list A) : option R :=
  match l with
  | [] => None
  | a :: l' =>
      match f a with
      | Some v => Some v
      | None => first_some f l'
      end
  end.

(** An alignment indicator with one edge: [b] for delays in [0,k), [1-b]
    in [k,4), with period 4. *)
Definition edge_indicator (k b d : Z) : Z :=
  if d mod 4 <? k then b else 1 - b.

(** A computation that returns [a] and adds the events [evs] to the
    history. *)
Definition yields {A} (m : M A) (s : rtio) (a : A) (evs : list event) : Prop :=
  exists s', m s = (inr a, s') /\
             map snd (trace s') = rev evs ++ map snd (trace s).

(** The pair probed at loop index [i] of the scan at window [w], if any. *)
Definition candidate (seed w i : Z) : list (Z * Z) :=
  if out_of_range (tap_at seed i) then [] else [(tap_at seed i, w)].

(** The pairs probed by the loops of [tune_sync_delay], in the order of the
    loops. *)
Definition loop_order (seed : Z) : list (Z * Z) :=
  flat_map (fun widx => flat_map (candidate seed (4 - widx)) (range 14))
           [0; 1; 2; 3].

Definition found (r : option (Z * Z)) : exn + Z * Z :=
  match r with
  | Some v => inr v
  | None => inl (ValueError "no valid window/delay"%string)
  end.


(** * The rest of the driver *)

(** [a << n] with a shift count that is not a constant: a negative count is
    an error. *)
Definition lshift (a n : Z) : M Z :=
  if n <? 0 then raise (ValueError "negative shift count"%string)
  else ret (shl32 a n).

(** Initialisation.  The wait for the PLL lock leaves its loop with [break],
    here [Some tt]; the tuple that [tune_sync_delay] returns is dropped, as in
    the source.  The delays of 1 ms and of 100 ms are looked up in the world
    as 1000 and 100000 microseconds. *)
Definition init (W : External) (self : AD9910) (blind : bool) : M unit :=
  (* Set SPI mode *)
  write32 W self _AD9910_REG_CFR1 0x00000002 ;;
  external W (Pulse 1) ;;
  delay_us W 1000 ;;
  (if negb blind then
     (* Use the AUX DAC setting to identify and confirm presence *)
     aux_dac <- read32 W self _AD9910_REG_AUX_DAC ;;
     if negb (Z.land aux_dac 0xff =? 0x7f) then
       raise (ValueError "Urukul AD9910 AUX_DAC mismatch"%string)
     else delay_us W 50
   else ret tt) ;;
  write32 W self _AD9910_REG_CFR2 0x01010020 ;;
  external W (Pulse 1) ;;
  let cfr3 :=
    Z.lor (Z.lor (Z.lor 0x0807c100 (shl32 (pll_vco self) 24))
                 (shl32 (pll_cp self) 19))
          (shl32 (pll_n self) 1) in
  write32 W self _AD9910_REG_CFR3 (Z.lor cfr3 0x400) ;;   (* PFD reset *)
  external W (Pulse 1) ;;
  write32 W self _AD9910_REG_CFR3 cfr3 ;;
  external W (Pulse 1) ;;
  (if blind then delay_us W 100000
   else
     (* Wait for PLL lock, up to 100 ms *)
     for_ (range 100) (fun i =>
       sta <- external W StaRead ;;
       let lock := urukul_sta_pll_lock W sta in
       delay_us W 1000 ;;
       bit <- lshift 1 (sub32 (chip_select self) 4) ;;
       if negb (Z.land lock bit =? 0) then ret (Some tt)
       else if i >=? sub32 100 1 then
         raise (ValueError "PLL lock timeout"%string)
       else ret None) ;;
     ret tt) ;;
  (if sync_delay_seed self >=? 0 then
     tune_sync_delay W self (sync_delay_seed self) ;; ret tt
   else ret tt) ;;
  delay_us W 1000.

Definition power_down (W : External) (self : AD9910) (bits : Z) : M unit :=
  write32 W self _AD9910_REG_CFR1 (Z.lor 0x00000002 (shl32 bits 4)) ;;
  external W (Pulse 1) ;;
  ret tt.

(** ** Unit conversions

    On the host: binary64 floats, [round] to the nearest integer with ties
    to even, [int32] keeping the low 32 bits. *)

Definition turns_to_pow (turns : float) : exn + Z :=
  match int_round (turns * float_of_int 0x10000)%float with
  | inl e => inl e
  | inr n => inr (int32 n)
  end.

Definition pow_to_turns (pow : Z) : float :=
  (float_of_int pow / float_of_int 0x10000)%float.

(** ** Further observations *)

(** The pulses on IO_UPDATE in a history, newest first: the value of the
    time cursor when the pulse was issued, and its length. *)
Definition pulse_stamps (tr : list (Z * event)) : list (Z * Z) :=
  flat_map (fun e => match snd e with
                     | PulseMu d => [(fst e, d)]
                     | _ => []
                     end) tr.

(** The register operations of one alignment measurement at [io_up_delay]. *)
Definition alignment_ops : list regop :=
  [RegWrite _AD9910_REG_CFR1 [0x0000c002];
   RegWrite _AD9910_REG_CFR2 [0x01090000];
   RegWrite _AD9910_REG_DRAMPL [-1; 0];
   RegWrite _AD9910_REG_DRAMPR [0x00010000];
   RegWrite _AD9910_REG_DRAMPS [-1; 0];
   IoUpdate;
   RegWrite _AD9910_REG_CFR1 [0x00000002];
   RegWrite _AD9910_REG_DRAMPS [0; 0];
   IoUpdate;
   RegRead _AD9910_REG_FTW;
   RegWrite _AD9910_REG_CFR2 [0x01010000];
   IoUpdate].

Definition is_read (ev : event) : bool :=
  match ev with
  | BusRead | StaRead => true
  | _ => false
  end.

(** The CFR3 word of [init]. *)
Definition cfr3_word (self : AD9910) : Z :=
  Z.lor (Z.lor (Z.lor 0x0807c100 (shl32 (pll_vco self) 24))
               (shl32 (pll_cp self) 19))
        (shl32 (pll_n self) 1).

(** The register writes of the PLL bring-up of [init]. *)
Definition pll_setup_ops (self : AD9910) : list regop :=
  [RegWrite _AD9910_REG_CFR2 [0x01010020]; IoUpdate;
   RegWrite _AD9910_REG_CFR3 [Z.lor (cfr3_word self) 0x400]; IoUpdate;
   RegWrite _AD9910_REG_CFR3 [cfr3_word self]; IoUpdate].

(** The integers from [lo], [n] of them. *)
Fixpoint zrange (lo : Z) (n : nat) : list Z :=
  match n with
  | O => []
  | S n' => lo :: zrange (lo + 1) n'
  end.

Definition read32_events (W : External) (self : AD9910) (addr : Z)
  : list event :=
  [SetConfigMu (SPI_CONFIG W) 8 (SPIT_DDS_WR W) (chip_select self);
   BusWrite (shl32 (Z.lor addr 0x80) 24);
   SetConfigMu (Z.lor (Z.lor (SPI_CONFIG W) (SPI_END W)) (SPI_INPUT W)) 32
               (SPIT_DDS_RD W) (chip_select self);
   BusWrite 0;
   BusRead].

(** The events of [init] up to the identity check, and those of the PLL
    bring-up. *)
Definition init_head_events (W : External) (self : AD9910) : list event :=
  write32_events W self _AD9910_REG_CFR1 0x00000002 ++ [Pulse 1].

Definition pll_setup_events (W : External) (self : AD9910) : list event :=
  write32_events W self _AD9910_REG_CFR2 0x01010020 ++ [Pulse 1]
  ++ write32_events W self _AD9910_REG_CFR3 (Z.lor (cfr3_word self) 0x400)
  ++ [Pulse 1]
  ++ write32_events W self _AD9910_REG_CFR3 (cfr3_word self) ++ [Pulse 1].

(** Two more bench worlds: the chip answers the identity read, and the PLL
    of channel 0 never locks, or is locked from the start. *)
Definition bench_unlocked : External :=
  Bench.world (fun h => match h with
                        | (_, BusRead) :: _ => 0x7f
                        | _ => 0
                        end).

Definition bench_locked : External := Bench.world (fun _ => 0x17f).

(** A channel as [Bench.channel], with a sync delay seed. *)
Definition bench_seeded (seed : Z) : AD9910 :=
  mkAD9910 4 32 7 5 (float_of_int (Z.shiftl 1 32) / 1e9)%float 1 seed 0
           PHASE_MODE_CONTINUOUS.

(** A bench channel whose IO_UPDATE delay is [d]. *)
Definition bench_delayed (d : Z) : AD9910 :=
  mkAD9910 4 32 7 5 (float_of_int (Z.shiftl 1 32) / 1e9)%float 1 (-1) d
           PHASE_MODE_CONTINUOUS.

(** The events of one alignment measurement. *)
Definition alignment_events (W : External) (self : AD9910) (io_up_delay : Z)
  : list event :=
  write32_events W self _AD9910_REG_CFR1 0x0000c002
  ++ write32_events W self _AD9910_REG_CFR2 0x01090000
  ++ write64_events W self _AD9910_REG_DRAMPL (-1) 0
  ++ write32_events W self _AD9910_REG_DRAMPR 0x00010000
  ++ write64_events W self _AD9910_REG_DRAMPS (-1) 0
  ++ [PulseMu 8]
  ++ write32_events W self _AD9910_REG_CFR1 0x00000002
  ++ write64_events W self _AD9910_REG_DRAMPS 0 0
  ++ [PulseMu (sub32 32 io_up_delay)]
  ++ read32_events W self _AD9910_REG_FTW
  ++ write32_events W self _AD9910_REG_CFR2 0x01010000
  ++ [PulseMu 8].

(** A computation only adds events to the history. *)
Definition appends {A} (m : M A) : Prop :=
  forall s, exists new, trace (snd (m s)) = new ++ trace s.

(** The first event a computation adds is [ev], issued at the cursor it was
    started with. *)
Definition opens {A} (ev : event) (m : M A) : Prop :=
  forall s, exists new, trace (snd (m s)) = new ++ (now s, ev) :: trace s.

(** * Machine integer facts *)

Module IntFacts.

Lemma int32_decomp z : exists k, int32 z = z + k * 2 ^ 32.
Proof.
  unfold int32, wrap.
  exists (- ((z + 2 ^ (32 - 1)) / 2 ^ 32)).
  pose proof (Z.div_mod (z + 2 ^ (32 - 1)) (2 ^ 32) ltac:(lia)).
  lia.
Qed.

Lemma int32_range z : - 2 ^ 31 <= int32 z < 2 ^ 31.
Proof.
  unfold int32, wrap.
  pose proof (Z.mod_pos_bound (z + 2 ^ (32 - 1)) (2 ^ 32) ltac:(lia)).
  change (2 ^ (32 - 1)) with (2 ^ 31) in *.
  change (2 ^ 32) with (2 * 2 ^ 31) in *. lia.
Qed.

Lemma int32_congr a b k : a = b + k * 2 ^ 32 -> int32 a = int32 b.
Proof.
  intros ->. unfold int32, wrap.
  replace (b + k * 2 ^ 32 + 2 ^ (32 - 1))
    with (b + 2 ^ (32 - 1) + k * 2 ^ 32) by ring.
  now rewrite Z.mod_add by lia.
Qed.

Lemma int32_small z : - 2 ^ 31 <= z < 2 ^ 31 -> int32 z = z.
Proof.
  intros H. unfold int32, wrap.
  change (2 ^ (32 - 1)) with (2 ^ 31) in *.
  rewrite Z.mod_small; [lia|].
  change (2 ^ 32) with (2 * 2 ^ 31). lia.
Qed.

Lemma sub32_int32 a b : sub32 (int32 a) (int32 b) = int32 (a - b).
Proof.
  unfold sub32.
  destruct (int32_decomp a) as [ka Ha], (int32_decomp b) as [kb Hb].
  rewrite Ha, Hb. apply int32_congr with (k := ka - kb). ring.
Qed.

Lemma mul32_mul32 a b c : mul32 (mul32 a b) c = int32 (a * b * c).
Proof.
  unfold mul32.
  destruct (int32_decomp (a * b)) as [k Hk].
  rewrite Hk. apply int32_congr with (k := k * c). ring.
Qed.

Lemma int32_mul3 a b c : int32 (int32 a * b * c) = int32 (a * b * c).
Proof.
  destruct (int32_decomp a) as [k Hk].
  rewrite Hk. apply int32_congr with (k := k * b * c). ring.
Qed.

(** The low 16 bits of [(asf << 16) | pow] are those of [pow]. *)
Lemma low_word asf pow :
  0 <= pow < 2 ^ 16 -> Z.land (Z.lor (shl32 asf 16) pow) 0xffff = pow.
Proof.
  intros H. change 0xffff with (Z.ones 16).
  rewrite Z.land_ones by lia.
  rewrite <- Z.land_ones, Z.land_lor_distr_l, !Z.land_ones by lia.
  assert (E : shl32 asf 16 mod 2 ^ 16 = 0).
  { unfold shl32. destruct (int32_decomp (Z.shiftl asf 16)) as [k ->].
    rewrite Z.shiftl_mul_pow2 by lia.
    replace (asf * 2 ^ 16 + k * 2 ^ 32) with ((asf + k * 2 ^ 16) * 2 ^ 16) by ring.
    apply Z.mod_mul. lia. }
  rewrite E, Z.lor_0_l. apply Z.mod_small. lia.
Qed.

End IntFacts.

(** * Stepping through a computation *)

Section Steps.

Variable W : External.
Variable self : AD9910.

Lemma issued_intro {A} (m : M A) (s : rtio) (l : list event) :
  map snd (trace (snd (m s))) = rev l ++ map snd (trace s) ->
  issued m s = l.
Proof.
  intros H. unfold issued.
  rewrite <- (length_map snd (trace (snd (m s)))), <- (length_map snd (trace s)).
  rewrite H, length_app, Nat.add_sub.
  rewrite firstn_app, Nat.sub_diag, firstn_all. simpl.
  now rewrite app_nil_r, rev_involutive.
Qed.

Lemma bind_assoc {A B C} (m : M A) (f : A -> M B) (k : B -> M C) s :
  bind (bind m f) k s = bind m (fun x => bind (f x) k) s.
Proof. unfold bind. destruct (m s) as [[e | a] s']; reflexivity. Qed.

Lemma bind_ret {A B} (a : A) (k : A -> M B) s : bind (ret a) k s = k a s.
Proof. reflexivity. Qed.

Lemma bind_raise {A B} (e : exn) (k : A -> M B) s :
  bind (raise e) k s = (inl e, s).
Proof. reflexivity. Qed.

Lemma bind_total {A B} (m : M A) (k : A -> M B) s a :
  fst (m s) = inr a -> bind m k s = k a (snd (m s)).
Proof. unfold bind. destruct (m s) as [[e | x] s']; simpl; congruence. Qed.

Lemma bind_now_mu {B} (k : Z -> M B) s : bind now_mu k s = k (now s) s.
Proof. reflexivity. Qed.

Lemma bind_at_mu {B} t (k : unit -> M B) s :
  bind (at_mu t) k s = k tt (mkRtio t (trace s)).
Proof. reflexivity. Qed.

Lemma bind_delay_mu {B} d (k : unit -> M B) s :
  bind (delay_mu d) k s = k tt (mkRtio (add64 (now s) d) (trace s)).
Proof. reflexivity. Qed.

Lemma bind_delay_us {B} d (k : unit -> M B) s :
  bind (delay_us W d) k s =
  k tt (mkRtio (add64 (now s) (us_to_mu W d)) (trace s)).
Proof. reflexivity. Qed.

Lemma bind_external {B} ev (k : Z -> M B) s :
  bind (external W ev) k s =
  k (op_value W ((now s, ev) :: trace s)) (snd (external W ev s)).
Proof. reflexivity. Qed.

Lemma bind_write32 {B} addr data (k : unit -> M B) s :
  bind (write32 W self addr data) k s = k tt (snd (write32 W self addr data s)).
Proof. reflexivity. Qed.

Lemma bind_write64 {B} addr hi lo (k : unit -> M B) s :
  bind (write64 W self addr hi lo) k s =
  k tt (snd (write64 W self addr hi lo s)).
Proof. reflexivity. Qed.

Lemma snd_ret {A} (a : A) s : snd (ret a s) = s.
Proof. reflexivity. Qed.

Lemma trace_mkRtio t tr : trace (mkRtio t tr) = tr.
Proof. reflexivity. Qed.

Lemma trace_external ev s :
  map snd (trace (snd (external W ev s))) = ev :: map snd (trace s).
Proof. reflexivity. Qed.

Lemma trace_write32 addr data s :
  map snd (trace (snd (write32 W self addr data s))) =
  rev (write32_events W self addr data) ++ map snd (trace s).
Proof. reflexivity. Qed.

Lemma trace_write64 addr hi lo s :
  map snd (trace (snd (write64 W self addr hi lo s))) =
  rev (write64_events W self addr hi lo) ++ map snd (trace s).
Proof. reflexivity. Qed.

End Steps.

Ltac step :=
  repeat first
    [ rewrite bind_assoc | rewrite bind_ret | rewrite bind_raise
    | rewrite bind_now_mu | rewrite bind_at_mu | rewrite bind_delay_mu
    | rewrite bind_delay_us | rewrite bind_external
    | rewrite bind_write32 | rewrite bind_write64 ].

Ltac traces :=
  repeat first
    [ rewrite snd_ret | rewrite trace_mkRtio | rewrite trace_external
    | rewrite trace_write32 | rewrite trace_write64 ].

(** * set_mu *)

Section SetMu.

Variable W : External.
Variable self : AD9910.

(** What [set_mu] returns and issues, by phase mode. *)
Lemma set_mu_continuous ftw pow asf mode ref_time s :
  effective_phase_mode self mode = PHASE_MODE_CONTINUOUS ->
  fst (set_mu W self ftw pow asf mode ref_time s) = inr pow /\
  issued (set_mu W self ftw pow asf mode ref_time) s =
    write64_events W self _AD9910_REG_PR0 (Z.lor (shl32 asf 16) pow) ftw
    ++ [PulseMu 8].
Proof.
  unfold effective_phase_mode. intros E.
  split; [|apply issued_intro]; unfold set_mu; rewrite E;
    change (negb (PHASE_MODE_CONTINUOUS =? PHASE_MODE_CONTINUOUS)) with false;
    cbv iota; step; [reflexivity|].
  traces. reflexivity.
Qed.

Lemma set_mu_uncorrected ftw pow asf mode ref_time s :
  effective_phase_mode self mode <> PHASE_MODE_CONTINUOUS ->
  effective_phase_mode self mode <> PHASE_MODE_TRACKING ->
  ref_time < 0 ->
  fst (set_mu W self ftw pow asf mode ref_time s) = inr pow /\
  issued (set_mu W self ftw pow asf mode ref_time) s =
    write32_events W self _AD9910_REG_CFR1 0x00002002
    ++ write64_events W self _AD9910_REG_PR0 (Z.lor (shl32 asf 16) pow) ftw
    ++ [PulseMu 8]
    ++ write32_events W self _AD9910_REG_CFR1 0x00000002.
Proof.
  unfold effective_phase_mode. intros E1 E2 Hr.
  apply Z.eqb_neq in E1, E2.
  assert (E3 : (ref_time >=? 0) = false) by lia.
  split; [|apply issued_intro]; unfold set_mu; rewrite E1, E2;
    cbn [negb andb]; rewrite E3; step; [reflexivity|].
  traces. reflexivity.
Qed.

Lemma set_mu_corrected ftw pow asf mode ref_time s :
  effective_phase_mode self mode <> PHASE_MODE_CONTINUOUS ->
  effective_phase_mode self mode = PHASE_MODE_TRACKING \/ 0 <= ref_time ->
  let pow' :=
    int32 (pow + Z.shiftr
             (int32 (int32 (update_time W self s - fiducial ref_time)
                     * ftw * sysclk_per_mu self)) 16) in
  fst (set_mu W self ftw pow asf mode ref_time s) = inr pow' /\
  issued (set_mu W self ftw pow asf mode ref_time) s =
    write32_events W self _AD9910_REG_CFR1 0x00002002
    ++ write64_events W self _AD9910_REG_PR0 (Z.lor (shl32 asf 16) pow') ftw
    ++ [PulseMu 8]
    ++ write32_events W self _AD9910_REG_CFR1 0x00000002.
Proof.
  intros E1 E2 pow'. unfold effective_phase_mode in E1, E2.
  apply Z.eqb_neq in E1.
  assert (E3 : (fiducial ref_time >=? 0) = true).
  { unfold fiducial. destruct (ref_time <? 0) eqn:E; lia. }
  assert (E4 : (if ((if mode =? _PHASE_MODE_DEFAULT then phase_mode self
                     else mode) =? PHASE_MODE_TRACKING) && (ref_time <? 0)
                then 0 else ref_time) = fiducial ref_time).
  { unfold fiducial. destruct (ref_time <? 0) eqn:E; [|now rewrite andb_false_r].
    destruct E2 as [-> | H]; [reflexivity | lia]. }
  assert (P : add32 pow (Z.shiftr (mul32 (mul32
                (sub32 (int32 (update_time W self s)) (int32 (fiducial ref_time)))
                ftw) (sysclk_per_mu self)) 16) = pow').
  { unfold pow', add32.
    now rewrite IntFacts.mul32_mul32, IntFacts.sub32_int32. }
  clearbody pow'. subst pow'. unfold update_time. step.
  split; [|apply issued_intro]; unfold set_mu; rewrite E1, E4;
    cbn [negb]; rewrite E3; step; [reflexivity|].
  traces. reflexivity.
Qed.

End SetMu.

(** The register-level view of what an armed and a continuous [set_mu]
    issue. *)
Lemma reg_ops_armed W self hi ftw :
  reg_ops (write32_events W self _AD9910_REG_CFR1 0x00002002
           ++ write64_events W self _AD9910_REG_PR0 hi ftw
           ++ [PulseMu 8]
           ++ write32_events W self _AD9910_REG_CFR1 0x00000002) =
  [RegWrite _AD9910_REG_CFR1 [0x00002002]; RegWrite _AD9910_REG_PR0 [hi; ftw];
   IoUpdate; RegWrite _AD9910_REG_CFR1 [0x00000002]].
Proof. reflexivity. Qed.

Lemma reg_ops_continuous W self hi ftw :
  reg_ops (write64_events W self _AD9910_REG_PR0 hi ftw ++ [PulseMu 8]) =
  [RegWrite _AD9910_REG_PR0 [hi; ftw]; IoUpdate].
Proof. reflexivity. Qed.

Lemma armed_bracketed hi ftw :
  bracketed
    [RegWrite _AD9910_REG_CFR1 [0x00002002]; RegWrite _AD9910_REG_PR0 [hi; ftw];
     IoUpdate; RegWrite _AD9910_REG_CFR1 [0x00000002]].
Proof.
  exists [], (RegWrite _AD9910_REG_CFR1 [0x00002002]),
    [RegWrite _AD9910_REG_PR0 [hi; ftw]; IoUpdate],
    (RegWrite _AD9910_REG_CFR1 [0x00000002]), [].
  repeat split.
Qed.

(** Whatever the mode, [set_mu] returns a phase word, and with a mode other
    than Continuous it issues the armed sequence around it. *)
Lemma set_mu_armed W self ftw pow asf mode ref_time s :
  effective_phase_mode self mode <> PHASE_MODE_CONTINUOUS ->
  exists r,
    fst (set_mu W self ftw pow asf mode ref_time s) = inr r /\
    reg_ops (issued (set_mu W self ftw pow asf mode ref_time) s) =
    [RegWrite _AD9910_REG_CFR1 [0x00002002];
     RegWrite _AD9910_REG_PR0 [Z.lor (shl32 asf 16) r; ftw];
     IoUpdate; RegWrite _AD9910_REG_CFR1 [0x00000002]].
Proof.
  intros E.
  destruct (Z.eq_dec (effective_phase_mode self mode) PHASE_MODE_TRACKING)
    as [T | T]; [|destruct (Z_lt_le_dec ref_time 0) as [R | R]].
  - destruct (set_mu_corrected W self ftw pow asf mode ref_time s E (or_introl T))
      as [H1 H2].
    eexists. split; [exact H1|]. rewrite H2. apply reg_ops_armed.
  - destruct (set_mu_uncorrected W self ftw pow asf mode ref_time s E T R)
      as [H1 H2].
    eexists. split; [exact H1|]. rewrite H2. apply reg_ops_armed.
  - destruct (set_mu_corrected W self ftw pow asf mode ref_time s E (or_intror R))
      as [H1 H2].
    eexists. split; [exact H1|]. rewrite H2. apply reg_ops_armed.
Qed.

(** The correction does not change when the time difference grows by
    [2^32 / ftw]. *)
Lemma correction_periodic x ftw k :
  0 < ftw -> (ftw | 2 ^ 32) ->
  int32 (int32 (x + 2 ^ 32 / ftw) * ftw * k) = int32 (int32 x * ftw * k).
Proof.
  intros Hpos [q Hq].
  assert (Hd : 2 ^ 32 / ftw = q) by (rewrite Hq; apply Z.div_mul; lia).
  rewrite Hd, !IntFacts.int32_mul3.
  apply IntFacts.int32_congr with (k := k).
  rewrite Hq. ring.
Qed.

(** The default phase mode is the one set last. *)
Lemma set_phase_mode_default self mode :
  effective_phase_mode (set_phase_mode self mode) _PHASE_MODE_DEFAULT = mode.
Proof. reflexivity. Qed.

(** C1, as the code has it: in Absolute mode a reference time that is not
    supplied (negative, the default) leaves the phase offset word alone, the
    word written and returned is the requested [pow]; a reference time that is
    supplied is not ignored, the call then does exactly what a Tracking call
    with that reference time does. *)
Theorem absolute_ref_time W self ftw pow asf mode ref_time s :
  effective_phase_mode self mode = PHASE_MODE_ABSOLUTE ->
  (ref_time < 0 ->
   fst (set_mu W self ftw pow asf mode ref_time s) = inr pow /\
   reg_ops (issued (set_mu W self ftw pow asf mode ref_time) s) =
   [RegWrite _AD9910_REG_CFR1 [0x00002002];
    RegWrite _AD9910_REG_PR0 [Z.lor (shl32 asf 16) pow; ftw];
    IoUpdate; RegWrite _AD9910_REG_CFR1 [0x00000002]]) /\
  (0 <= ref_time ->
   set_mu W self ftw pow asf mode ref_time s =
   set_mu W self ftw pow asf PHASE_MODE_TRACKING ref_time s).
Proof.
  intros E. split; intros R.
  - destruct (set_mu_uncorrected W self ftw pow asf mode ref_time s) as [H1 H2];
      try (rewrite E; discriminate); trivial.
    split; [exact H1|]. rewrite H2. apply reg_ops_armed.
  - unfold effective_phase_mode in E. unfold set_mu. rewrite E.
    replace (ref_time <? 0) with false by lia.
    reflexivity.
Qed.

Lemma absolute_ref_time_witness :
  (fst (set_mu Bench.quiet Bench.channel 65536 0 0x3fff PHASE_MODE_ABSOLUTE
          (-1) Bench.start) = inr 0) /\
  set_mu Bench.quiet Bench.channel 65536 0 0x3fff PHASE_MODE_ABSOLUTE 0
    Bench.start =
  set_mu Bench.quiet Bench.channel 65536 0 0x3fff PHASE_MODE_TRACKING 0
    Bench.start.
Proof.
  destruct (absolute_ref_time Bench.quiet Bench.channel 65536 0 0x3fff
              PHASE_MODE_ABSOLUTE (-1) Bench.start eq_refl) as [H _].
  destruct (absolute_ref_time Bench.quiet Bench.channel 65536 0 0x3fff
              PHASE_MODE_ABSOLUTE 0 Bench.start eq_refl) as [_ H'].
  split; [apply H; lia | apply H'; lia].
Defined.

(** C1 as stated fails: an Absolute call with reference time 0 at cursor
    1000 returns 1208 for a requested phase offset word of 0. *)
Lemma absolute_ref_time_not_ignored :
  ~ (forall W self ftw pow asf ref_time s,
       fst (set_mu W self ftw pow asf PHASE_MODE_ABSOLUTE ref_time s) = inr pow).
Proof.
  intros H.
  specialize (H Bench.quiet Bench.channel 65536 0 0x3fff 0 Bench.start).
  vm_compute in H. discriminate H.
Qed.

(** C3: in Tracking mode the phase offset word written and returned is
    [pow + ((dt * ftw * sysclk_per_mu) >> 16)], where [dt] is the difference
    between the cursor and the reference time reduced to a signed 32-bit
    value, and a reference time that is not supplied (negative) counts as 0.
    The product and the sum are 32-bit operations of the kernel as well; when
    they stay in range the formula holds over the integers. *)
Theorem tracking_phase_word W self ftw pow asf mode ref_time s :
  effective_phase_mode self mode = PHASE_MODE_TRACKING ->
  let ref := if ref_time <? 0 then 0 else ref_time in
  let dt := int32 (update_time W self s - ref) in
  let pow' :=
    int32 (pow + Z.shiftr (int32 (dt * ftw * sysclk_per_mu self)) 16) in
  fst (set_mu W self ftw pow asf mode ref_time s) = inr pow' /\
  reg_ops (issued (set_mu W self ftw pow asf mode ref_time) s) =
    [RegWrite _AD9910_REG_CFR1 [0x00002002];
     RegWrite _AD9910_REG_PR0 [Z.lor (shl32 asf 16) pow'; ftw];
     IoUpdate; RegWrite _AD9910_REG_CFR1 [0x00000002]] /\
  (- 2 ^ 31 <= dt * ftw * sysclk_per_mu self < 2 ^ 31 ->
   - 2 ^ 31 <= pow + Z.shiftr (dt * ftw * sysclk_per_mu self) 16 < 2 ^ 31 ->
   pow' = pow + Z.shiftr (dt * ftw * sysclk_per_mu self) 16).
Proof.
  intros E ref dt pow'.
  destruct (set_mu_corrected W self ftw pow asf mode ref_time s) as [H1 H2];
    [rewrite E; discriminate | now left |].
  split; [exact H1|]. split.
  - rewrite H2. apply reg_ops_armed.
  - intros R1 R2. unfold pow'.
    rewrite (IntFacts.int32_small _ R1). now apply IntFacts.int32_small.
Qed.

Lemma tracking_phase_word_witness :
  fst (set_mu Bench.quiet Bench.channel 65536 7 0x3fff PHASE_MODE_TRACKING (-1)
         Bench.start) =
  inr (7 + Z.shiftr
             (int32 (update_time Bench.quiet Bench.channel Bench.start - 0)
              * 65536 * 1) 16).
Proof.
  destruct (tracking_phase_word Bench.quiet Bench.channel 65536 7 0x3fff
              PHASE_MODE_TRACKING (-1) Bench.start eq_refl) as (H1 & _ & H3).
  rewrite H1. apply f_equal. apply H3.
  - vm_compute. split; [discriminate | reflexivity].
  - vm_compute. split; [discriminate | reflexivity].
Defined.

(** C4: a call of [set_mu] in Absolute or Tracking mode returns, and its
    register trace is the arm write to CFR1 (auto-clear bit set), the profile
    write, one update pulse and the disarm write to CFR1 (bit clear), in this
    order: one arm, one disarm, one pulse between them, no other CFR1
    write. *)
Theorem arm_disarm_bracket W self ftw pow asf mode ref_time s :
  effective_phase_mode self mode = PHASE_MODE_ABSOLUTE \/
  effective_phase_mode self mode = PHASE_MODE_TRACKING ->
  exists r,
    fst (set_mu W self ftw pow asf mode ref_time s) = inr r /\
    let ops := reg_ops (issued (set_mu W self ftw pow asf mode ref_time) s) in
    ops = [RegWrite _AD9910_REG_CFR1 [0x00002002];
           RegWrite _AD9910_REG_PR0 [Z.lor (shl32 asf 16) r; ftw];
           IoUpdate; RegWrite _AD9910_REG_CFR1 [0x00000002]] /\
    bracketed ops /\
    count is_arm ops = 1%nat /\ count is_disarm ops = 1%nat /\
    count is_io_update ops = 1%nat.
Proof.
  intros E.
  destruct (set_mu_armed W self ftw pow asf mode ref_time s) as (r & H1 & H2).
  { destruct E as [-> | ->]; discriminate. }
  exists r. split; [exact H1|]. cbv zeta. rewrite H2.
  split; [reflexivity|]. split; [apply armed_bracketed|]. repeat split.
Qed.

Lemma arm_disarm_bracket_witness :
  exists r,
    fst (set_mu Bench.quiet Bench.channel 65536 7 0x3fff PHASE_MODE_ABSOLUTE (-1)
           Bench.start) = inr r /\
    bracketed
      (reg_ops (issued (set_mu Bench.quiet Bench.channel 65536 7 0x3fff
                          PHASE_MODE_ABSOLUTE (-1)) Bench.start)).
Proof.
  destruct (arm_disarm_bracket Bench.quiet Bench.channel 65536 7 0x3fff
              PHASE_MODE_ABSOLUTE (-1) Bench.start (or_introl eq_refl))
    as (r & H1 & _ & H3 & _).
  exists r. split; [exact H1 | exact H3].
Defined.

(** C5: a call of [set_mu] in Continuous mode writes the profile register and
    pulses IO_UPDATE, nothing else: no write to CFR1; the phase offset word
    returned is the requested [pow], and it is what the low 16 bits of the
    high profile word carry. *)
Theorem continuous_frame W self ftw pow asf mode ref_time s :
  effective_phase_mode self mode = PHASE_MODE_CONTINUOUS ->
  fst (set_mu W self ftw pow asf mode ref_time s) = inr pow /\
  let ops := reg_ops (issued (set_mu W self ftw pow asf mode ref_time) s) in
  ops = [RegWrite _AD9910_REG_PR0 [Z.lor (shl32 asf 16) pow; ftw]; IoUpdate] /\
  count is_cfr1_write ops = 0%nat /\
  (0 <= pow < 2 ^ 16 -> Z.land (Z.lor (shl32 asf 16) pow) 0xffff = pow).
Proof.
  intros E.
  destruct (set_mu_continuous W self ftw pow asf mode ref_time s E) as [H1 H2].
  split; [exact H1|]. cbv zeta. rewrite H2, reg_ops_continuous.
  split; [reflexivity|]. split; [reflexivity|]. apply IntFacts.low_word.
Qed.

Lemma continuous_frame_witness :
  fst (set_mu Bench.quiet Bench.channel 65536 7 0x3fff _PHASE_MODE_DEFAULT 5
         Bench.start) = inr 7 /\
  Z.land (Z.lor (shl32 0x3fff 16) 7) 0xffff = 7.
Proof.
  destruct (continuous_frame Bench.quiet Bench.channel 65536 7 0x3fff
              _PHASE_MODE_DEFAULT 5 Bench.start eq_refl) as (H1 & _ & _ & H4).
  split; [exact H1 | apply H4; lia].
Defined.

(** C8: in Tracking mode, for [ftw] a positive divisor of [2^32], two calls
    whose time differences (cursor minus fiducial) are [2^32 / ftw] apart
    return the same phase offset word and write the same registers. *)
Theorem tracking_periodic W self ftw pow asf mode ref_time ref_time' s s' :
  effective_phase_mode self mode = PHASE_MODE_TRACKING ->
  0 < ftw -> (ftw | 2 ^ 32) ->
  update_time W self s' - fiducial ref_time' =
    update_time W self s - fiducial ref_time + 2 ^ 32 / ftw ->
  fst (set_mu W self ftw pow asf mode ref_time' s') =
    fst (set_mu W self ftw pow asf mode ref_time s) /\
  reg_ops (issued (set_mu W self ftw pow asf mode ref_time') s') =
    reg_ops (issued (set_mu W self ftw pow asf mode ref_time) s).
Proof.
  intros E Hpos Hdiv Hdt.
  destruct (set_mu_corrected W self ftw pow asf mode ref_time s) as [H1 H2];
    [rewrite E; discriminate | now left |].
  destruct (set_mu_corrected W self ftw pow asf mode ref_time' s') as [H1' H2'];
    [rewrite E; discriminate | now left |].
  rewrite Hdt, correction_periodic in H1', H2' by assumption.
  split; [now rewrite H1, H1' |].
  rewrite H2, H2'. now rewrite !reg_ops_armed.
Qed.

Lemma tracking_periodic_witness :
  fst (set_mu Bench.quiet Bench.channel 65536 7 0x3fff PHASE_MODE_TRACKING (-1)
         (mkRtio 66536 [])) =
  fst (set_mu Bench.quiet Bench.channel 65536 7 0x3fff PHASE_MODE_TRACKING (-1)
         Bench.start).
Proof.
  apply (tracking_periodic Bench.quiet Bench.channel 65536 7 0x3fff
           PHASE_MODE_TRACKING (-1) (-1) Bench.start (mkRtio 66536 []) eq_refl).
  - lia.
  - exists 65536. reflexivity.
  - reflexivity.
Defined.

(** C10: the phase offset word is not reduced to 16 bits.  The high word of
    the profile write is [(asf << 16) | pow] on the word that is returned,
    whatever its size; and there are calls in Tracking mode, with [pow] a
    16-bit value, whose returned word is above 16 bits or negative, the
    amplitude field of the high word then being other than [asf]. *)
Theorem phase_word_not_reduced :
  (forall W self ftw pow asf mode ref_time s,
     exists r,
       fst (set_mu W self ftw pow asf mode ref_time s) = inr r /\
       In (RegWrite _AD9910_REG_PR0 [Z.lor (shl32 asf 16) r; ftw])
          (reg_ops (issued (set_mu W self ftw pow asf mode ref_time) s))) /\
  (exists W self ftw pow asf ref_time s r,
     0 <= pow < 2 ^ 16 /\ 0 <= asf < 2 ^ 14 /\
     fst (set_mu W self ftw pow asf PHASE_MODE_TRACKING ref_time s) = inr r /\
     2 ^ 16 <= r /\
     Z.shiftr (Z.lor (shl32 asf 16) r) 16 <> asf) /\
  (exists W self ftw pow asf ref_time s r,
     0 <= pow < 2 ^ 16 /\ 0 <= asf < 2 ^ 14 /\
     fst (set_mu W self ftw pow asf PHASE_MODE_TRACKING ref_time s) = inr r /\
     r < 0 /\
     Z.shiftr (Z.lor (shl32 asf 16) r) 16 <> asf).
Proof.
  split; [|split].
  - intros W self ftw pow asf mode ref_time s.
    destruct (Z.eq_dec (effective_phase_mode self mode) PHASE_MODE_CONTINUOUS)
      as [E | E].
    + destruct (set_mu_continuous W self ftw pow asf mode ref_time s E)
        as [H1 H2].
      exists pow. split; [exact H1|].
      rewrite H2, reg_ops_continuous. now left.
    + destruct (set_mu_armed W self ftw pow asf mode ref_time s E)
        as (r & H1 & H2).
      exists r. split; [exact H1|]. rewrite H2. right. now left.
  - exists Bench.quiet, Bench.channel, 65536, 0xffff, 0x3ffe, (-1), Bench.start,
      66743.
    vm_compute. repeat split; congruence.
  - exists Bench.quiet, Bench.channel, (-65536), 0, 0x3ffe, (-1), Bench.start,
      (-1208).
    vm_compute. repeat split; congruence.
Qed.

(** * Construction *)

(** C9: the constructor fails, before anything is issued to the bus or the
    hardware (the history and the cursor are as they were), when the PLL
    multiplier is outside [12,127], when refclk/4 is not at most 60 MHz, when
    the system clock is not at most 1 GHz or is not in the selected VCO band,
    and when the number of system clock ticks per machine unit is not an
    integer.  The failure is that of an [assert], except where the system
    clock is zero or the number of ticks is not finite: the division or the
    rounding raises first. *)
Theorem init_rejects W chip_select pll_n pll_cp pll_vco sync_delay_seed
  io_update_delay s :
  let sysclk := sysclk_of W pll_n in
  pll_n < 12 \/ 127 < pll_n \/
  (refclk W / 4 <=? 60e6)%float = false \/
  (sysclk <=? 1e9)%float = false \/
  in_band pll_vco sysclk = false \/
  exact_ticks (sysclk * ref_period W)%float = false ->
  exists e,
    __init__ W chip_select pll_n pll_cp pll_vco sync_delay_seed io_update_delay s
    = (inl e, s) /\
    (e = AssertionError \/
     ((sysclk =? 0)%float = true /\ e = ZeroDivisionError) \/
     int_round (sysclk * ref_period W)%float = inl e).
Proof.
  intros sysclk H. unfold __init__. fold (sysclk_of W pll_n). fold sysclk.
  unfold in_band, exact_ticks in H.
  destruct ((3 <=? chip_select) && (chip_select <=? 7)) eqn:E0;
    cbn [assert]; step;
    [|exists AssertionError; split; [reflexivity | now left]].
  destruct ((12 <=? pll_n) && (pll_n <=? 127)) eqn:E1;
    cbn [assert]; step;
    [|exists AssertionError; split; [reflexivity | now left]].
  destruct (refclk W / 4 <=? 60e6)%float eqn:E2;
    cbn [assert]; step;
    [|exists AssertionError; split; [reflexivity | now left]].
  destruct (sysclk <=? 1e9)%float eqn:E3;
    cbn [assert]; step;
    [|exists AssertionError; split; [reflexivity | now left]].
  unfold truediv.
  destruct (sysclk =? 0)%float eqn:E4;
    cbn [lift]; step;
    [exists ZeroDivisionError; split; [reflexivity | right; left; now split]|].
  destruct (int_round (sysclk * ref_period W)%float) as [e | n] eqn:E5;
    cbn [lift]; step;
    [exists e; split; [reflexivity | now right; right]|].
  destruct (int_eq_float n (sysclk * ref_period W)%float) eqn:E6;
    cbn [assert]; step;
    [|exists AssertionError; split; [reflexivity | now left]].
  destruct ((0 <=? pll_vco) && (pll_vco <=? 5)) eqn:E7;
    cbn [assert]; step;
    [|exists AssertionError; split; [reflexivity | now left]].
  destruct (nth (Z.to_nat pll_vco) vco_bands (0, 0)) as [vco_min vco_max].
  destruct ((float_of_int vco_min <=? sysclk / 1e6)%float
            && (sysclk / 1e6 <=? float_of_int vco_max)%float) eqn:E8;
    cbn [assert]; step;
    [|exists AssertionError; split; [reflexivity | now left]].
  exfalso. cbn [andb] in H.
  destruct H as [H | [H | [H | [H | [H | H]]]]]; try discriminate; lia.
Qed.

Lemma init_rejects_witness :
  exists e,
    __init__ Bench.quiet 4 11 7 5 (-1) 0 Bench.start = (inl e, Bench.start).
Proof.
  destruct (init_rejects Bench.quiet 4 11 7 5 (-1) 0 Bench.start) as (e & H & _).
  - left. lia.
  - exists e. exact H.
Defined.

(** A configuration the constructor accepts: 125 MHz reference, multiplier
    32, a machine unit of 1 ns. *)
Example init_accepts :
  fst (__init__ Bench.quiet 4 32 7 5 (-1) 0 Bench.start) = inr Bench.channel.
Proof. vm_compute. reflexivity. Qed.

(** * Loops *)

(** A loop whose body, at index [i], returns what [f i] says, whatever the
    state: the loop returns the first result in the order of the list. *)
Lemma for_first_some {R} (body : Z -> M (option R)) (f : Z -> option R) l :
  (forall i s, In i l -> fst (body i s) = inr (f i)) ->
  forall s, fst (for_ l body s) = inr (first_some f l).
Proof.
  induction l as [| a l IH]; intros H s; [reflexivity|].
  cbn [for_ first_some].
  rewrite (bind_total _ _ _ _ (H a s (or_introl eq_refl))).
  destruct (f a); [reflexivity|].
  apply IH. intros i s' Hi. apply H. now right.
Qed.

(** * IO_UPDATE alignment *)

Section TuneIoUpdateDelay.

Variable W : External.
Variable self : AD9910.

(** The indicator that a probe at delay [d] returns. *)
Variable indicator : Z -> Z.

Hypothesis alignment_probe_returns :
  forall d s, 0 <= d < 8 ->
    fst (measure_io_update_alignment W self d s) = inr (indicator d).

Hypothesis starts_at_zero : io_update_delay self = 0.

(** From delay 0, the scan compares the indicator at delays 1 to 7 with
    that at delay 0; at the first delay [i + 1] that differs it returns
    [(i + 2) mod 4]. *)
Lemma tune_io_update_delay_scan s :
  fst (tune_io_update_delay W self s) =
  match first_some
          (fun i => if negb (indicator (i + 1) =? int32 (indicator 0))
                    then Some ((i + 2) mod 4) else None)
          [0; 1; 2; 3; 4; 5; 6] with
  | Some v => inr v
  | None => inl (ValueError "no IO_UPDATE-SYNC_CLK alignment edge found"%string)
  end.
Proof.
  unfold tune_io_update_delay. rewrite starts_at_zero.
  rewrite (bind_total _ _ _ _ (alignment_probe_returns 0 s ltac:(lia))).
  change (range (sub32 8 1)) with [0; 1; 2; 3; 4; 5; 6].
  match goal with
  | |- fst (bind (for_ ?l ?body) ?k ?s') = _ =>
      pose proof (for_first_some body
        (fun i => if negb (indicator (i + 1) =? int32 (indicator 0))
                  then Some ((i + 2) mod 4) else None) l) as F
  end.
  match type of F with
  | ?P -> _ => assert (HP : P)
  end.
  { intros i s' Hi.
    assert (Hd : Z.land (add32 (add32 0 i) 1) (sub32 8 1) = i + 1)
      by (cbn [In] in Hi; intuition (subst; reflexivity)).
    assert (Hr : Z.land (add32 (add32 0 i) (4 / 2)) (sub32 4 1) = (i + 2) mod 4)
      by (cbn [In] in Hi; intuition (subst; reflexivity)).
    rewrite Hd, Hr.
    rewrite (bind_total _ _ _ _ (alignment_probe_returns (i + 1) s'
               ltac:(cbn [In] in Hi; lia))).
    destruct (negb (indicator (i + 1) =? int32 (indicator 0))); reflexivity. }
  specialize (F HP). clear HP.
  rewrite (bind_total _ _ _ _ (F _)).
  match goal with
  | |- context [first_some ?f ?l] => destruct (first_some f l)
  end; reflexivity.
Qed.

End TuneIoUpdateDelay.

(** C2, as the code has it: with the indicator [b] for delays in [0,k) and
    [1-b] in [k,4), period 4, and a start delay of 0, the scan stops at
    delay [k] and returns [(k + 1) mod 4]. *)
Theorem tune_io_update_delay_edge W self k b s :
  1 <= k < 4 -> b = 0 \/ b = 1 ->
  io_update_delay self = 0 ->
  (forall d s', 0 <= d < 8 ->
     fst (measure_io_update_alignment W self d s') = inr (edge_indicator k b d)) ->
  fst (tune_io_update_delay W self s) = inr ((k + 1) mod 4).
Proof.
  intros Hk Hb Hd H.
  rewrite (tune_io_update_delay_scan W self (edge_indicator k b) H Hd).
  assert (K : k = 1 \/ k = 2 \/ k = 3) by lia.
  destruct K as [-> | [-> | ->]], Hb as [-> | ->]; reflexivity.
Qed.

(** The bench world [Bench.edge k b] answers the probe as the claim
    supposes. *)
Lemma trace_external_cons W ev s :
  trace (snd (external W ev s)) = (now s, ev) :: trace s.
Proof. reflexivity. Qed.

Lemma edge_value k b t0 e1 e2 e3 e4 t5 p h :
  op_value (Bench.edge k b)
    ((t0, BusRead) :: e1 :: e2 :: e3 :: e4 :: (t5, PulseMu p) :: h) =
  if (32 - p) mod 4 <? k then b else 1 - b.
Proof. reflexivity. Qed.

Lemma edge_probe k b d s :
  b = 0 \/ b = 1 -> 0 <= d < 8 ->
  fst (measure_io_update_alignment (Bench.edge k b) Bench.channel d s) =
  inr (edge_indicator k b d).
Proof.
  intros Hb Hd. unfold measure_io_update_alignment, read32. step.
  rewrite !trace_external_cons, edge_value.
  unfold ret, fst. f_equal. unfold edge_indicator.
  assert (E : (32 - sub32 32 d) mod 4 = d mod 4).
  { assert (D : d = 0 \/ d = 1 \/ d = 2 \/ d = 3 \/ d = 4 \/ d = 5 \/ d = 6 \/
                d = 7) by lia.
    intuition (subst; reflexivity). }
  rewrite E.
  destruct (d mod 4 <? k), Hb as [-> | ->]; reflexivity.
Qed.

Lemma tune_io_update_delay_edge_witness :
  fst (tune_io_update_delay (Bench.edge 1 0) Bench.channel Bench.start) =
  inr ((1 + 1) mod 4).
Proof.
  apply (tune_io_update_delay_edge (Bench.edge 1 0) Bench.channel 1 0
           Bench.start).
  - lia.
  - now left.
  - reflexivity.
  - intros d s' Hd. apply edge_probe; [now left | exact Hd].
Defined.

(** C2 as stated fails: with the edge at delay 1 the scan returns 2, not
    [(1 + 2) mod 4]. *)
Lemma tune_io_update_delay_not_k_plus_2 :
  ~ (forall W self k b s,
       1 <= k < 4 -> b = 0 \/ b = 1 ->
       io_update_delay self = 0 ->
       (forall d s', 0 <= d < 8 ->
          fst (measure_io_update_alignment W self d s') =
          inr (edge_indicator k b d)) ->
       fst (tune_io_update_delay W self s) = inr ((k + 2) mod 4)).
Proof.
  intros H.
  specialize (H (Bench.edge 1 0) Bench.channel 1 0 Bench.start
                ltac:(lia) (or_introl eq_refl) eq_refl
                (fun d s' Hd => edge_probe 1 0 d s' (or_introl eq_refl) Hd)).
  vm_compute in H. discriminate H.
Qed.

(** * SYNC_IN delay tuning *)

Lemma scan_app W self err l1 l2 :
  scan W self err (l1 ++ l2) =
  match snd (scan W self err l1) with
  | Some v => scan W self err l1
  | None => (fst (scan W self err l1) ++ fst (scan W self err l2),
             snd (scan W self err l2))
  end.
Proof.
  induction l1 as [| [d w] l1 IH]; cbn [scan app].
  - now destruct (scan W self err l2).
  - destruct (err d w); [|reflexivity].
    rewrite IH. destruct (scan W self err l1) as [e1 [v |]]; cbn [fst snd].
    + reflexivity.
    + destruct (scan W self err l2) as [e2 r2]. cbn [fst snd].
      now rewrite app_assoc.
Qed.

(** What a scan returns is the first pair whose flag is clear, its window
    decreased by one. *)
Lemma scan_find W self err l :
  snd (scan W self err l) =
  option_map (fun p => (fst p, snd p - 1))
             (find (fun p => negb (err (fst p) (snd p))) l).
Proof.
  induction l as [| [d w] l IH]; cbn [scan find fst snd]; [reflexivity|].
  destruct (err d w); cbn [negb]; [|reflexivity].
  now destruct (scan W self err l).
Qed.

(** A loop whose body, at index [i], does what a scan of [cand i] does, is
    a scan of the pairs in the order of the loop. *)
Lemma for_scan W self err (body : Z -> M (option (Z * Z)))
  (cand : Z -> list (Z * Z)) l :
  (forall i s, In i l ->
     yields (body i) s (snd (scan W self err (cand i)))
                       (fst (scan W self err (cand i)))) ->
  forall s,
    yields (for_ l body) s (snd (scan W self err (flat_map cand l)))
                           (fst (scan W self err (flat_map cand l))).
Proof.
  unfold yields.
  induction l as [| a l IH]; intros H s.
  - exists s. split; reflexivity.
  - cbn [for_ flat_map]. rewrite scan_app.
    destruct (H a s (or_introl eq_refl)) as (s1 & R1 & T1).
    unfold bind at 1. rewrite R1.
    destruct (snd (scan W self err (cand a))) as [v |] eqn:E.
    + exists s1. rewrite E. split; [reflexivity | exact T1].
    + destruct (IH (fun i s' Hi => H i s' (or_intror Hi)) s1) as (s2 & R2 & T2).
      exists s2. split; [exact R2|]. cbn [fst snd].
      now rewrite T2, T1, rev_app_distr, app_assoc.
Qed.

Lemma testbit_flag a n :
  0 <= n -> (Z.land (Z.shiftr a n) 1 =? 0) = negb (Z.testbit a n).
Proof.
  intros Hn. change 1 with (Z.ones 1) at 1.
  rewrite Z.land_ones by lia. change (2 ^ 1) with 2.
  rewrite <- Z.bit0_mod, Z.shiftr_spec by lia. cbn [Z.add].
  now destruct (Z.testbit a n).
Qed.

Lemma fst_ret_inv {A} (a b : A) s : fst (ret a s) = inr b -> a = b.
Proof. unfold ret, fst. congruence. Qed.

Section TuneSyncDelay.

Variable W : External.
Variable self : AD9910.

Lemma bind_set_sync {B} d w (k : unit -> M B) s :
  bind (set_sync W self d w) k s = k tt (snd (set_sync W self d w s)).
Proof. unfold set_sync. apply bind_write32. Qed.

Lemma trace_set_sync d w s :
  map snd (trace (snd (set_sync W self d w s))) =
  rev (set_sync_events W self d w) ++ map snd (trace s).
Proof. unfold set_sync, set_sync_events, msync_word. apply trace_write32. Qed.

Lemma clear_smp_err_run s :
  clear_smp_err W self s = (inr tt, snd (clear_smp_err W self s)).
Proof. unfold clear_smp_err. step. reflexivity. Qed.

Lemma bind_clear_smp_err {B} (k : unit -> M B) s :
  bind (clear_smp_err W self) k s = k tt (snd (clear_smp_err W self s)).
Proof. apply bind_total. now rewrite clear_smp_err_run. Qed.

Lemma trace_clear_smp_err s :
  map snd (trace (snd (clear_smp_err W self s))) =
  rev (clear_smp_err_events W self) ++ map snd (trace s).
Proof. unfold clear_smp_err. step. traces. reflexivity. Qed.


Variable err : Z -> Z -> bool.
Variable seed : Z.

Hypothesis individual_channel : 4 <= chip_select self <= 7.

Hypothesis smp_err_probe_returns :
  forall d w s, 0 <= d <= 31 -> 1 <= w <= 4 ->
    fst (smp_err_probe W self d w s) = inr (err d w).

Lemma smp_err_probe_run d w s :
  smp_err_probe W self d w s =
  (inr (Z.testbit
          (urukul_sta_smp_err W
             (op_value W
                ((now (snd (clear_smp_err W self (snd (set_sync W self d w s)))),
                  StaRead)
                 :: trace (snd (clear_smp_err W self
                                  (snd (set_sync W self d w s)))))))
          (chip_select self - 4)),
   snd (external W StaRead
          (snd (clear_smp_err W self (snd (set_sync W self d w s)))))).
Proof.
  unfold smp_err_probe.
  rewrite bind_set_sync, bind_clear_smp_err, bind_external. reflexivity.
Qed.

Lemma probe_flag d w s :
  0 <= d <= 31 -> 1 <= w <= 4 ->
  Z.testbit
    (urukul_sta_smp_err W
       (op_value W
          ((now (snd (clear_smp_err W self (snd (set_sync W self d w s)))),
            StaRead)
           :: trace (snd (clear_smp_err W self (snd (set_sync W self d w s)))))))
    (chip_select self - 4) = err d w.
Proof.
  intros Hd Hw. pose proof (smp_err_probe_returns d w s Hd Hw) as H.
  rewrite smp_err_probe_run in H. cbn [fst] in H. congruence.
Qed.

Lemma out_of_range_false d : out_of_range d = false -> 0 <= d <= 31.
Proof. unfold out_of_range. lia. Qed.


(** The loops of [tune_sync_delay] are a scan of [loop_order seed]. *)
Lemma tune_sync_delay_scan s :
  exists s',
    tune_sync_delay W self seed s =
      (found (snd (scan W self err (loop_order seed))), s') /\
    map snd (trace s') =
      rev (fst (scan W self err (loop_order seed))) ++ map snd (trace s).
Proof.
  unfold tune_sync_delay.
  change (range (add32 (sub32 (add32 (14 / 4) 1) 1) 1)) with [0; 1; 2; 3].
  match goal with
  | |- context [for_ [0; 1; 2; 3] ?outer] => set (outer_body := outer)
  end.
  assert (Outer : forall widx s', In widx [0; 1; 2; 3] ->
            yields (outer_body widx) s'
              (snd (scan W self err (flat_map (candidate seed (4 - widx)) (range 14))))
              (fst (scan W self err (flat_map (candidate seed (4 - widx)) (range 14))))).
  { intros widx s' Hw. subst outer_body. cbv beta.
    assert (Ew : sub32 (add32 (14 / 4) 1) widx = 4 - widx)
      by (cbn [In] in Hw; intuition (subst; reflexivity)).
    rewrite Ew.
    assert (Rw : 1 <= 4 - widx <= 4) by (cbn [In] in Hw; lia).
    set (w := 4 - widx) in *. clearbody w. clear Ew Hw widx.
    apply for_scan. intros i s1 _. cbv beta.
    fold (tap_at seed i). fold (out_of_range (tap_at seed i)).
    unfold candidate.
    destruct (out_of_range (tap_at seed i)) eqn:Eo.
    - exists s1. split; reflexivity.
    - apply out_of_range_false in Eo. set (d := tap_at seed i) in *.
      clearbody d.
      assert (Ec : sub32 (chip_select self) 4 = chip_select self - 4)
        by (apply IntFacts.int32_small; lia).
      assert (Es : sub32 w 1 = w - 1) by (apply IntFacts.int32_small; lia).
      rewrite Ec, Es. unfold yields.
      rewrite bind_set_sync, bind_clear_smp_err, bind_external, bind_delay_us.
      unfold rshift. replace (chip_select self - 4 <? 0) with false by lia.
      rewrite bind_ret, testbit_flag by lia.
      rewrite probe_flag by assumption.
      cbn [scan]. destruct (err d w); cbn [negb fst snd].
      + eexists. split; [reflexivity|].
        rewrite trace_mkRtio, trace_external, trace_clear_smp_err,
          trace_set_sync.
        unfold probe_events.
        rewrite app_nil_r, !rev_app_distr, <- !app_assoc. reflexivity.
      + rewrite bind_set_sync, bind_clear_smp_err, bind_delay_us.
        eexists. split; [reflexivity|].
        repeat first
          [ rewrite snd_ret | rewrite trace_mkRtio | rewrite trace_external
          | rewrite trace_clear_smp_err | rewrite trace_set_sync ].
        unfold probe_events, reprogram_events.
        rewrite !rev_app_distr, <- !app_assoc. reflexivity. }
  destruct (for_scan W self err outer_body
              (fun widx => flat_map (candidate seed (4 - widx)) (range 14))
              [0; 1; 2; 3] (fun widx s' Hw => Outer widx s' Hw) s)
    as (s' & R & T).
  fold (loop_order seed) in R, T.
  exists s'. split; [|exact T].
  unfold bind. rewrite R.
  destruct (snd (scan W self err (loop_order seed))); reflexivity.
Qed.

End TuneSyncDelay.

(** The order of the loops is the scan order: windows 4, 3, 2, 1 and, for
    each, the taps [seed], [seed - 1], [seed + 1], [seed - 2], ... that lie
    in [0,31]. *)
Lemma tap_at_offset seed i :
  - 2 ^ 31 + 7 <= seed <= 2 ^ 31 - 7 -> 0 <= i < 14 ->
  tap_at seed i = seed + nth (Z.to_nat i) tap_offsets 0.
Proof.
  intros Hs Hi.
  assert (I : i = 0 \/ i = 1 \/ i = 2 \/ i = 3 \/ i = 4 \/ i = 5 \/ i = 6 \/
              i = 7 \/ i = 8 \/ i = 9 \/ i = 10 \/ i = 11 \/ i = 12 \/ i = 13)
    by lia.
  decompose [or] I; subst i; unfold tap_at, add32;
    match goal with
    | |- int32 (seed + ?x) = _ =>
        let v := eval vm_compute in x in change x with v
    end;
    rewrite IntFacts.int32_small by lia; reflexivity.
Qed.

Lemma candidates_taps seed w :
  - 2 ^ 31 + 7 <= seed <= 2 ^ 31 - 7 ->
  flat_map (candidate seed w) (range 14) = map (fun d => (d, w)) (taps seed).
Proof.
  intros Hs. unfold taps.
  assert (E : map (tap_at seed) (range 14) = map (Z.add seed) tap_offsets).
  { change (range 14) with [0; 1; 2; 3; 4; 5; 6; 7; 8; 9; 10; 11; 12; 13].
    cbn [map tap_offsets].
    rewrite !(tap_at_offset seed) by lia. reflexivity. }
  rewrite <- E. clear E.
  induction (range 14) as [| i l IH]; [reflexivity|].
  cbn [flat_map map filter]. rewrite IH. unfold candidate.
  destruct (out_of_range (tap_at seed i)); reflexivity.
Qed.

Lemma loop_order_scan_order seed :
  - 2 ^ 31 + 7 <= seed <= 2 ^ 31 - 7 -> loop_order seed = scan_order seed.
Proof.
  intros Hs. unfold loop_order, scan_order, windows. cbn [flat_map].
  now rewrite !candidates_taps.
Qed.

(** A scan that finds a pair ends with the events of the re-programming. *)
Lemma scan_found_suffix W self err l d w :
  snd (scan W self err l) = Some (d, w) ->
  exists pre, fst (scan W self err l) = pre ++ reprogram_events W self d w.
Proof.
  induction l as [| [d' w'] l IH]; cbn [scan]; [discriminate|].
  destruct (err d' w').
  - destruct (scan W self err l) as [evs r]. cbn [fst snd] in *.
    intros H. destruct (IH H) as [pre ->].
    exists (probe_events W self d' w' ++ pre). now rewrite app_assoc.
  - cbn [fst snd]. intros [= <- <-]. now exists (probe_events W self d' w').
Qed.

(** C6: with an error flag that is a function [err] of the (delay, window)
    pair, [tune_sync_delay] probes the pairs of [scan_order seed] in order:
    windows 4, 3, 2, 1 and for each the taps [seed], [seed - 1], [seed + 1],
    [seed - 2], [seed + 2], ... within [0,31].  At the first pair [(d, w)]
    whose flag is clear it programs the sync register with window [w - 1],
    clears the error state again and returns [(d, w - 1)]; these are the last
    events it issues. *)
Theorem tune_sync_delay_first_clear W self err seed s :
  4 <= chip_select self <= 7 ->
  - 2 ^ 31 + 7 <= seed <= 2 ^ 31 - 7 ->
  (forall d w s', 0 <= d <= 31 -> 1 <= w <= 4 ->
     fst (smp_err_probe W self d w s') = inr (err d w)) ->
  issued (tune_sync_delay W self seed) s =
    fst (scan W self err (scan_order seed)) /\
  match find (fun p => negb (err (fst p) (snd p))) (scan_order seed) with
  | Some (d, w) =>
      fst (tune_sync_delay W self seed s) = inr (d, w - 1) /\
      exists pre,
        issued (tune_sync_delay W self seed) s =
        pre ++ reprogram_events W self d (w - 1)
  | None =>
      fst (tune_sync_delay W self seed s) =
      inl (ValueError "no valid window/delay"%string)
  end.
Proof.
  intros Hc Hs Hp.
  destruct (tune_sync_delay_scan W self err seed Hc Hp s) as (s' & R & T).
  rewrite (loop_order_scan_order seed Hs) in R, T.
  assert (I : issued (tune_sync_delay W self seed) s =
              fst (scan W self err (scan_order seed))).
  { apply issued_intro. rewrite R. exact T. }
  split; [exact I|].
  rewrite I, R. cbn [fst].
  pose proof (scan_find W self err (scan_order seed)) as F.
  pose proof (scan_found_suffix W self err (scan_order seed)) as S.
  destruct (find (fun p => negb (err (fst p) (snd p))) (scan_order seed))
    as [[d w] |]; cbn [option_map fst snd] in F; rewrite F in *.
  - split; [reflexivity|]. now apply S.
  - reflexivity.
Qed.

(** ** The number of probes *)

Lemma count_app {A} (p : A -> bool) l1 l2 :
  count p (l1 ++ l2) = (count p l1 + count p l2)%nat.
Proof. unfold count. now rewrite filter_app, length_app. Qed.

Lemma probes_eq s n :
  count is_probe (map snd (trace s)) = n -> probes s = n.
Proof. trivial. Qed.

Lemma snd_pair {A B} (a : A) (b : B) : snd (a, b) = b.
Proof. reflexivity. Qed.

(** A loop whose body adds at most [c] probes adds at most [c] for each
    index. *)
Lemma for_probes {R} (body : Z -> M (option R)) c l :
  (forall i s, (probes (snd (body i s)) <= probes s + c)%nat) ->
  forall s,
    (probes (snd (for_ l body s)) <= probes s + c * List.length l)%nat.
Proof.
  intros H. induction l as [| a l IH]; intros s.
  - cbn [for_ List.length]. rewrite snd_ret. lia.
  - cbn [for_ List.length]. unfold bind at 1.
    pose proof (H a s) as Ha.
    destruct (body a s) as [[e | [v |]] s1].
    + rewrite snd_pair in *. lia.
    + rewrite snd_ret. rewrite snd_pair in Ha. lia.
    + rewrite snd_pair in Ha. specialize (IH s1). lia.
Qed.

Lemma tune_sync_delay_probes W self seed s :
  (probes (snd (tune_sync_delay W self seed s)) <= probes s + 4 * 14)%nat.
Proof.
  unfold tune_sync_delay.
  change (range (add32 (sub32 (add32 (14 / 4) 1) 1) 1)) with [0; 1; 2; 3].
  change (range 14) with [0; 1; 2; 3; 4; 5; 6; 7; 8; 9; 10; 11; 12; 13].
  match goal with
  | |- context [for_ [0; 1; 2; 3] ?outer] => set (outer_body := outer)
  end.
  assert (Outer : forall widx s',
            (probes (snd (outer_body widx s')) <= probes s' + 14)%nat).
  { intros widx s'. subst outer_body. cbv beta.
    match goal with
    | |- context [for_ ?l ?inner] =>
        pose proof (for_probes inner 1 l) as F
    end.
    match type of F with
    | ?P -> _ => assert (HP : P)
    end.
    { clear F. intros i s1. cbv beta.
      fold (tap_at seed i). fold (out_of_range (tap_at seed i)).
      destruct (out_of_range (tap_at seed i)).
      - rewrite snd_ret. lia.
      - rewrite bind_set_sync, bind_clear_smp_err, bind_external, bind_delay_us.
        unfold rshift.
        assert (P1 : forall t d w,
                  probes (mkRtio t (trace (snd (external W StaRead
                    (snd (clear_smp_err W self (snd (set_sync W self d w s1)))))))) =
                  S (probes s1)).
        { intros t d w. apply probes_eq.
          rewrite trace_mkRtio, trace_external, trace_clear_smp_err,
            trace_set_sync.
          change (StaRead :: ?l) with ([StaRead] ++ l).
          rewrite !count_app. reflexivity. }
        destruct (sub32 (chip_select self) 4 <? 0).
        + rewrite bind_raise, snd_pair, P1. lia.
        + rewrite bind_ret.
          match goal with
          | |- context [if ?c then _ else _] => destruct c
          end.
          * rewrite bind_set_sync, bind_clear_smp_err, bind_delay_us, snd_ret.
            match goal with
            | |- (probes ?st <= _)%nat =>
                assert (P2 : probes st = S (probes s1))
            end.
            { apply probes_eq.
              rewrite trace_mkRtio, trace_clear_smp_err, trace_set_sync,
                trace_mkRtio, trace_external, trace_clear_smp_err,
                trace_set_sync.
              change (StaRead :: ?l) with ([StaRead] ++ l).
              rewrite !count_app. reflexivity. }
            rewrite P2. lia.
          * rewrite snd_ret, P1. lia. }
    specialize (F HP s'). cbn [List.length] in F. lia. }
  pose proof (for_probes outer_body 14 [0; 1; 2; 3] Outer s) as F.
  cbn [List.length] in F.
  unfold bind.
  destruct (for_ [0; 1; 2; 3] outer_body s) as [[e | [v |]] s1];
    rewrite ?snd_pair in *; try rewrite snd_ret; unfold raise;
    rewrite ?snd_pair; lia.
Qed.

Lemma scan_all_asserted W self l :
  snd (scan W self (fun _ _ => true) l) = None.
Proof.
  induction l as [| [d w] l IH]; cbn [scan]; [reflexivity|].
  now destruct (scan W self (fun _ _ => true) l).
Qed.

(** C7: [tune_sync_delay] reads the status, and with it the error flag, at
    most [max_window * max_delay = 4 * 14] times, whatever the hardware
    answers; and when the flag of this channel is asserted at every pair it
    probes, it fails with the error "no valid window/delay". *)
Theorem tune_sync_delay_exhausted W self seed s :
  (probes (snd (tune_sync_delay W self seed s)) <= probes s + 4 * 14)%nat /\
  (4 <= chip_select self <= 7 ->
   (forall d w s', 0 <= d <= 31 -> 1 <= w <= 4 ->
      fst (smp_err_probe W self d w s') = inr true) ->
   fst (tune_sync_delay W self seed s) =
   inl (ValueError "no valid window/delay"%string)).
Proof.
  split; [apply tune_sync_delay_probes|].
  intros Hc Hp.
  destruct (tune_sync_delay_scan W self (fun _ _ => true) seed Hc Hp s)
    as (s' & R & _).
  rewrite R, scan_all_asserted. reflexivity.
Qed.

(** The bench world [Bench.noisy] asserts the flag at every probe. *)
Lemma noisy_probe d w s :
  fst (smp_err_probe Bench.noisy Bench.channel d w s) = inr true.
Proof. rewrite smp_err_probe_run. reflexivity. Qed.

Lemma tune_sync_delay_exhausted_witness :
  fst (tune_sync_delay Bench.noisy Bench.channel 9 Bench.start) =
  inl (ValueError "no valid window/delay"%string).
Proof.
  apply (tune_sync_delay_exhausted Bench.noisy Bench.channel 9 Bench.start).
  - cbn. lia.
  - intros d w s' _ _. apply noisy_probe.
Defined.

(** The bench world [Bench.valley lo hi wmax] answers a probe with the
    error function [Bench.valley_err lo hi wmax]. *)
Lemma In_range d n : 0 <= d < n -> In d (range n).
Proof.
  intros H. unfold range.
  rewrite <- (Z2Nat.id d) by lia.
  apply in_map, in_seq. lia.
Qed.

Lemma msync_word_decode d w :
  0 <= d <= 31 -> 1 <= w <= 4 ->
  Z.land (Z.shiftr (msync_word d w) 3) 0x1f = d /\
  Z.land (Z.shiftr (msync_word d w) 28) 0xf = w.
Proof.
  intros Hd Hw.
  assert (T : forallb (fun d =>
                forallb (fun w =>
                  (Z.land (Z.shiftr (msync_word d w) 3) 0x1f =? d)
                  && (Z.land (Z.shiftr (msync_word d w) 28) 0xf =? w))
                  [1; 2; 3; 4]) (range 32) = true)
    by (vm_compute; reflexivity).
  rewrite forallb_forall in T.
  specialize (T d (In_range d 32 ltac:(lia))).
  rewrite forallb_forall in T.
  assert (I : In w [1; 2; 3; 4]) by (cbn [In]; lia).
  specialize (T w I). lia.
Qed.

Lemma clear_smp_err_trace W self s :
  exists e1 e2 e3 e4 e5 e6 e7 e8 e9 e10,
    trace (snd (clear_smp_err W self s)) =
    e1 :: e2 :: e3 :: e4 :: e5 :: e6 :: e7 :: e8 :: e9 :: e10 :: trace s.
Proof.
  unfold clear_smp_err, write32. step.
  rewrite snd_ret, !trace_external_cons. repeat eexists.
Qed.

Lemma set_sync_trace W self d w s :
  exists t e2 e3 e4,
    trace (snd (set_sync W self d w s)) =
    (t, BusWrite (msync_word d w)) :: e2 :: e3 :: e4 :: trace s.
Proof.
  unfold set_sync, write32. step.
  rewrite snd_ret, !trace_external_cons. repeat eexists.
Qed.

Lemma valley_value lo hi wmax e0 e1 e2 e3 e4 e5 e6 e7 e8 e9 e10 t m h :
  op_value (Bench.valley lo hi wmax)
    (e0 :: e1 :: e2 :: e3 :: e4 :: e5 :: e6 :: e7 :: e8 :: e9 :: e10
     :: (t, BusWrite m) :: h) =
  if (lo <=? Z.land (Z.shiftr m 3) 0x1f) && (Z.land (Z.shiftr m 3) 0x1f <=? hi)
     && (Z.land (Z.shiftr m 28) 0xf <=? wmax)
  then 0 else 0x10.
Proof. reflexivity. Qed.

Lemma valley_probe lo hi wmax d w s :
  0 <= d <= 31 -> 1 <= w <= 4 ->
  fst (smp_err_probe (Bench.valley lo hi wmax) Bench.channel d w s) =
  inr (Bench.valley_err lo hi wmax d w).
Proof.
  intros Hd Hw. rewrite smp_err_probe_run.
  destruct (set_sync_trace (Bench.valley lo hi wmax) Bench.channel d w s)
    as (t & f2 & f3 & f4 & E1).
  destruct (clear_smp_err_trace (Bench.valley lo hi wmax) Bench.channel
              (snd (set_sync (Bench.valley lo hi wmax) Bench.channel d w s)))
    as (e1 & e2 & e3 & e4 & e5 & e6 & e7 & e8 & e9 & e10 & E2).
  rewrite E2, E1, valley_value.
  destruct (msync_word_decode d w Hd Hw) as [-> ->].
  unfold Bench.valley_err, fst. f_equal.
  now destruct ((lo <=? d) && (d <=? hi) && (w <=? wmax)).
Qed.

Lemma tune_sync_delay_first_clear_witness :
  fst (tune_sync_delay (Bench.valley 10 12 2) Bench.channel 9 Bench.start) =
  inr (10, 1).
Proof.
  pose proof (tune_sync_delay_first_clear (Bench.valley 10 12 2) Bench.channel
                (Bench.valley_err 10 12 2) 9 Bench.start) as H.
  destruct H as [_ H].
  - cbn. lia.
  - lia.
  - intros d w s' Hd Hw. now apply valley_probe.
  - change (find (fun p => negb (Bench.valley_err 10 12 2 (fst p) (snd p)))
                 (scan_order 9)) with (Some (10, 2)) in H.
    exact (proj1 H).
Defined.

(** * Runs on the bench *)

(** The scan against a valley of clear flags, run as it is: the windows 4 and
    3 show the flag at every tap, at window 2 the taps 9 and 8 show it, tap 10
    is clear. *)
Example tune_sync_delay_valley_run :
  fst (tune_sync_delay (Bench.valley 10 12 2) Bench.channel 9 Bench.start) =
  inr (10, 1) /\
  probes (snd (tune_sync_delay (Bench.valley 10 12 2) Bench.channel 9
                 Bench.start)) = 31%nat.
Proof. vm_compute. split; reflexivity. Qed.

(** The alignment scan with the edge at delays 1, 2 and 3. *)
Example tune_io_update_delay_runs :
  fst (tune_io_update_delay (Bench.edge 1 0) Bench.channel Bench.start) = inr 2 /\
  fst (tune_io_update_delay (Bench.edge 2 1) Bench.channel Bench.start) = inr 3 /\
  fst (tune_io_update_delay (Bench.edge 3 0) Bench.channel Bench.start) = inr 0.
Proof. vm_compute. repeat split; reflexivity. Qed.

(** No edge within the scan: the indicator never changes. *)
Example tune_io_update_delay_no_edge :
  fst (tune_io_update_delay Bench.quiet Bench.channel Bench.start) =
  inl (ValueError "no IO_UPDATE-SYNC_CLK alignment edge found"%string).
Proof. vm_compute. reflexivity. Qed.

(** The constructor on the bench (reference clock 125 MHz): a multiplier of
    40 gives 1.25 GHz, above 1 GHz; 1 GHz is outside VCO band 4 (700 to
    950 MHz); a chip select of 8 is refused. *)
Example init_rejects_runs :
  fst (__init__ Bench.quiet 4 40 7 5 (-1) 0 Bench.start) = inl AssertionError /\
  fst (__init__ Bench.quiet 4 32 7 4 (-1) 0 Bench.start) = inl AssertionError /\
  fst (__init__ Bench.quiet 8 32 7 5 (-1) 0 Bench.start) = inl AssertionError.
Proof. vm_compute. repeat split; reflexivity. Qed.


(** * Register access *)

Lemma In_zrange x n lo : lo <= x < lo + Z.of_nat n -> In x (zrange lo n).
Proof.
  revert lo. induction n as [| n IH]; intros lo H; [lia|].
  cbn [zrange]. destruct (Z.eq_dec lo x) as [-> | Hne]; [now left|].
  right. apply IH. lia.
Qed.

Lemma mk_regop_write addr words :
  0 <= addr < 0x80 -> mk_regop (shl32 addr 24) words = RegWrite addr words.
Proof.
  intros H.
  assert (T : forallb (fun a =>
                (Z.land (Z.shiftr (shl32 a 24) 24) 0xff =? a)
                && negb (Z.testbit a 7)) (zrange 0 128) = true)
    by (vm_compute; reflexivity).
  rewrite forallb_forall in T.
  specialize (T addr (In_zrange addr 128 0 ltac:(lia))).
  apply andb_prop in T. destruct T as [T1 T2].
  apply Z.eqb_eq in T1. apply negb_true_iff in T2.
  unfold mk_regop. now rewrite T1, T2.
Qed.

Lemma mk_regop_read addr words :
  0 <= addr < 0x80 ->
  mk_regop (shl32 (Z.lor addr 0x80) 24) words = RegRead addr.
Proof.
  intros H.
  assert (T : forallb (fun a =>
                Z.testbit (Z.land (Z.shiftr (shl32 (Z.lor a 0x80) 24) 24) 0xff) 7
                && (Z.land (Z.land (Z.shiftr (shl32 (Z.lor a 0x80) 24) 24) 0xff)
                           0x7f =? a)) (zrange 0 128) = true)
    by (vm_compute; reflexivity).
  rewrite forallb_forall in T.
  specialize (T addr (In_zrange addr 128 0 ltac:(lia))).
  apply andb_prop in T. destruct T as [T1 T2].
  apply Z.eqb_eq in T2.
  unfold mk_regop. now rewrite T1, T2.
Qed.

Lemma read32_run W self addr s :
  exists t h,
    read32 W self addr s =
    (inr (op_value W ((t, BusRead) :: h)), snd (read32 W self addr s)).
Proof.
  unfold read32. step.
  match goal with
  | |- context [external W BusRead ?S] =>
      exists (now S), (trace S)
  end.
  reflexivity.
Qed.

Lemma trace_read32 W self addr s :
  map snd (trace (snd (read32 W self addr s))) =
  rev (read32_events W self addr) ++ map snd (trace s).
Proof. reflexivity. Qed.

(** X1: the framing of the register accesses.  For a 7-bit address,
    [write32] is one transaction that carries the address and one data word,
    [write64] one that carries the address and the high and the low word in
    this order, [read32] one whose address byte has the read flag set and that
    returns what the bus shifted in; each issues nothing else. *)
Theorem register_framing W self addr data data_high data_low s :
  0 <= addr < 0x80 ->
  (fst (write32 W self addr data s) = inr tt /\
   reg_ops (issued (write32 W self addr data) s) = [RegWrite addr [data]]) /\
  (fst (write64 W self addr data_high data_low s) = inr tt /\
   reg_ops (issued (write64 W self addr data_high data_low) s) =
   [RegWrite addr [data_high; data_low]]) /\
  (exists t h,
     fst (read32 W self addr s) = inr (op_value W ((t, BusRead) :: h)) /\
     reg_ops (issued (read32 W self addr) s) = [RegRead addr]).
Proof.
  intros H. split; [|split].
  - split; [reflexivity|].
    rewrite (issued_intro _ _ _ (trace_write32 W self addr data s)).
    change (reg_ops (write32_events W self addr data))
      with [mk_regop (shl32 addr 24) [data]].
    now rewrite mk_regop_write.
  - split; [reflexivity|].
    rewrite (issued_intro _ _ _ (trace_write64 W self addr data_high data_low s)).
    change (reg_ops (write64_events W self addr data_high data_low))
      with [mk_regop (shl32 addr 24) [data_high; data_low]].
    now rewrite mk_regop_write.
  - destruct (read32_run W self addr s) as (t & h & R).
    exists t, h. split; [now rewrite R|].
    rewrite (issued_intro _ _ _ (trace_read32 W self addr s)).
    change (reg_ops (read32_events W self addr))
      with [mk_regop (shl32 (Z.lor addr 0x80) 24) [0]].
    now rewrite mk_regop_read.
Qed.

Lemma register_framing_witness :
  reg_ops (issued (write64 Bench.quiet Bench.channel _AD9910_REG_PR0 5 6)
             Bench.start) = [RegWrite _AD9910_REG_PR0 [5; 6]].
Proof.
  destruct (register_framing Bench.quiet Bench.channel _AD9910_REG_PR0 0 5 6
              Bench.start) as (_ & [_ H] & _).
  - cbv. split; [discriminate | reflexivity].
  - exact H.
Defined.


(** * Initialisation *)

Lemma land_bit a n :
  0 <= n -> (Z.land a (2 ^ n) =? 0) = negb (Z.testbit a n).
Proof.
  intros Hn. destruct (Z.testbit a n) eqn:T; cbn [negb].
  - apply Z.eqb_neq. intros E.
    assert (B : Z.testbit (Z.land a (2 ^ n)) n = true)
      by (rewrite Z.land_spec, T, Z.pow2_bits_true by lia; reflexivity).
    rewrite E, Z.bits_0 in B. discriminate.
  - apply Z.eqb_eq. apply Z.bits_inj'. intros m Hm.
    rewrite Z.land_spec, Z.bits_0, Z.pow2_bits_eqb by lia.
    destruct (Z.eqb_spec n m) as [<- | _]; [now rewrite T | apply andb_false_r].
Qed.

Lemma lock_bit cs :
  4 <= cs <= 7 -> sub32 cs 4 = cs - 4 /\ shl32 1 (cs - 4) = 2 ^ (cs - 4).
Proof.
  intros H.
  assert (C : cs = 4 \/ cs = 5 \/ cs = 6 \/ cs = 7) by lia.
  decompose [or] C; subst cs; split; reflexivity.
Qed.

Lemma reg_ops_from_status len l n :
  reg_ops_from len (l ++ repeat StaRead n) = reg_ops_from len l.
Proof.
  revert len. induction l as [| ev l IH]; intros len.
  - induction n as [| n IHn]; [reflexivity | exact IHn].
  - destruct ev; cbn [app reg_ops_from]; now rewrite ?IH.
Qed.

Lemma count_repeat_status n : count is_probe (repeat StaRead n) = n.
Proof. induction n as [| n IH]; [reflexivity|]. unfold count in *. cbn. now rewrite IH. Qed.

(** A loop whose body goes on to the next index without a result for the
    indices of [l1] and raises at [j], each time adding the events [evs]. *)
Lemma for_raise {R} (body : Z -> M (option R)) (e : exn) evs l1 j l2 :
  (forall i s, In i l1 ->
     exists s', body i s = (inr None, s') /\
                map snd (trace s') = evs ++ map snd (trace s)) ->
  (forall s,
     exists s', body j s = (inl e, s') /\
                map snd (trace s') = evs ++ map snd (trace s)) ->
  forall s,
    exists s', for_ (l1 ++ j :: l2) body s = (inl e, s') /\
               map snd (trace s') =
               List.concat (repeat evs (S (List.length l1))) ++ map snd (trace s).
Proof.
  intros Hnone Hraise. induction l1 as [| a l1 IH]; intros s.
  - cbn [app for_ List.length repeat List.concat].
    destruct (Hraise s) as (s' & R1 & T1).
    exists s'. unfold bind. rewrite R1. split; [reflexivity|].
    now rewrite app_nil_r.
  - cbn [app for_ List.length].
    destruct (Hnone a s (or_introl eq_refl)) as (s1 & R1 & T1).
    destruct (IH (fun i s' Hi => Hnone i s' (or_intror Hi)) s1)
      as (s2 & R2 & T2).
    exists s2. unfold bind at 1. rewrite R1. split; [exact R2|].
    rewrite T2, T1.
    change (repeat evs (S (S (List.length l1))))
      with (evs :: repeat evs (S (List.length l1))).
    replace (evs :: repeat evs (S (List.length l1)))
      with (repeat evs (S (List.length l1)) ++ [evs])
      by (symmetry; apply (repeat_cons (S (List.length l1)) evs)).
    rewrite concat_app. cbn [List.concat]. now rewrite app_nil_r, app_assoc.
Qed.

Section Init.

Variable W : External.
Variable self : AD9910.

Lemma init_blind_issued s :
  sync_delay_seed self < 0 ->
  issued (init W self true) s =
  init_head_events W self ++ pll_setup_events W self.
Proof.
  intros Hseed.
  assert (E : (sync_delay_seed self >=? 0) = false) by lia.
  apply issued_intro. unfold init. rewrite E. cbn [negb]. step.
  traces. reflexivity.
Qed.

(** X2: a blind initialisation without a sync delay seed returns, reads
    nothing back (neither the bus nor the status), and its register writes
    are the SPI mode into CFR1, then CFR2 and twice CFR3, first with the PFD
    reset bit and then without, each followed by an update pulse. *)
Theorem init_blind s :
  sync_delay_seed self < 0 ->
  fst (init W self true s) = inr tt /\
  count is_read (issued (init W self true) s) = 0%nat /\
  reg_ops (issued (init W self true) s) =
  [RegWrite _AD9910_REG_CFR1 [0x00000002]; IoUpdate] ++ pll_setup_ops self.
Proof.
  intros Hseed.
  assert (E : (sync_delay_seed self >=? 0) = false) by lia.
  rewrite (init_blind_issued s Hseed).
  split; [|split].
  - unfold init. rewrite E. cbn [negb]. step. reflexivity.
  - reflexivity.
  - unfold pll_setup_events, pll_setup_ops.
    generalize (cfr3_word self). intros c. reflexivity.
Qed.


Ltac read_step :=
  match goal with
  | |- context [bind (read32 W self ?a) ?k ?S] =>
      let t := fresh "t" in
      let h := fresh "h" in
      let R := fresh "R" in
      destruct (read32_run W self a S) as (t & h & R);
      rewrite (bind_total (read32 W self a) k S _ (f_equal fst R))
  end.

(** X3: when the AUX DAC register does not read back with 0x7f in its low
    byte, a non-blind initialisation fails with "Urukul AD9910 AUX_DAC
    mismatch" right after the read: no PLL register has been written. *)
Theorem init_identity_mismatch s :
  (forall t h, Z.land (op_value W ((t, BusRead) :: h)) 0xff <> 0x7f) ->
  fst (init W self false s) =
    inl (ValueError "Urukul AD9910 AUX_DAC mismatch"%string) /\
  reg_ops (issued (init W self false) s) =
    [RegWrite _AD9910_REG_CFR1 [0x00000002]; IoUpdate;
     RegRead _AD9910_REG_AUX_DAC].
Proof.
  intros Hid.
  assert (I : init W self false s =
              (inl (ValueError "Urukul AD9910 AUX_DAC mismatch"%string),
               snd (read32 W self _AD9910_REG_AUX_DAC
                      (mkRtio
                         (add64 (now (snd (external W (Pulse 1)
                            (snd (write32 W self _AD9910_REG_CFR1 0x00000002 s)))))
                            (us_to_mu W 1000))
                         (trace (snd (external W (Pulse 1)
                            (snd (write32 W self _AD9910_REG_CFR1 0x00000002 s))))))))).
  { unfold init. cbn [negb]. step. read_step.
    match goal with
    | |- context [Z.land ?v 0xff =? 0x7f] =>
        destruct (Z.eqb_spec (Z.land v 0xff) 0x7f) as [E | E];
        [exfalso; exact (Hid _ _ E)|]
    end.
    cbn [negb]. step. reflexivity. }
  split; [now rewrite I|].
  rewrite (issued_intro _ _ (init_head_events W self
                             ++ read32_events W self _AD9910_REG_AUX_DAC)).
  - reflexivity.
  - rewrite I. rewrite snd_pair, trace_read32. traces. reflexivity.
Qed.

Hypothesis individual_channel : 4 <= chip_select self <= 7.

(** One poll of the PLL lock. *)
Lemma pll_poll i s :
  forall sta, sta = op_value W ((now s, StaRead) :: trace s) ->
  exists s',
    (sta' <- external W StaRead ;;
     delay_us W 1000 ;;
     bit <- lshift 1 (sub32 (chip_select self) 4) ;;
     if negb (Z.land (urukul_sta_pll_lock W sta') bit =? 0) then ret (Some tt)
     else if i >=? sub32 100 1 then
       raise (ValueError "PLL lock timeout"%string)
     else ret None) s =
    ((if Z.testbit (urukul_sta_pll_lock W sta) (chip_select self - 4)
      then inr (Some tt)
      else if i >=? 99 then inl (ValueError "PLL lock timeout"%string)
      else inr None), s') /\
    map snd (trace s') = [StaRead] ++ map snd (trace s).
Proof.
  intros sta ->. destruct (lock_bit _ individual_channel) as [E1 E2].
  rewrite E1. unfold lshift.
  replace (chip_select self - 4 <? 0) with false by lia.
  step. rewrite E2, land_bit by lia.
  change (sub32 100 1) with 99.
  destruct (Z.testbit _ (chip_select self - 4)); cbn [negb].
  - eexists. split; [reflexivity|]. traces. reflexivity.
  - destruct (i >=? 99).
    + eexists. split; [reflexivity|]. traces. reflexivity.
    + eexists. split; [reflexivity|]. traces. reflexivity.
Qed.


Lemma bind_fail {A B} (m : M A) (k : A -> M B) s e s' :
  m s = (inl e, s') -> bind m k s = (inl e, s').
Proof. intros H. unfold bind. now rewrite H. Qed.

Lemma bind_done {A B} (m : M A) (k : A -> M B) s a s' :
  m s = (inr a, s') -> bind m k s = k a s'.
Proof. intros H. unfold bind. now rewrite H. Qed.

Hypothesis identity_ok :
  forall t h, Z.land (op_value W ((t, BusRead) :: h)) 0xff = 0x7f.

Ltac to_lock_wait :=
  unfold init; cbn [negb]; step; read_step;
  rewrite identity_ok; change (negb (0x7f =? 0x7f)) with false; cbv iota;
  step.

(** X4: when the identity check passes and the lock bit of this channel
    never shows in the status, a non-blind initialisation polls the status
    100 times and fails with "PLL lock timeout"; the PLL registers have been
    written, nothing is written after. *)
Theorem init_lock_timeout s :
  (forall t h,
     Z.testbit (urukul_sta_pll_lock W (op_value W ((t, StaRead) :: h)))
               (chip_select self - 4) = false) ->
  fst (init W self false s) = inl (ValueError "PLL lock timeout"%string) /\
  count is_probe (issued (init W self false) s) = 100%nat /\
  reg_ops (issued (init W self false) s) =
    [RegWrite _AD9910_REG_CFR1 [0x00000002]; IoUpdate;
     RegRead _AD9910_REG_AUX_DAC] ++ pll_setup_ops self.
Proof.
  intros Hno.
  assert (I : exists s',
             init W self false s =
               (inl (ValueError "PLL lock timeout"%string), s') /\
             map snd (trace s') =
               rev (init_head_events W self
                    ++ read32_events W self _AD9910_REG_AUX_DAC
                    ++ pll_setup_events W self ++ repeat StaRead 100)
               ++ map snd (trace s)).
  { to_lock_wait.
    change (range 100) with (range 99 ++ [99]).
    match goal with
    | |- context [bind (for_ _ ?body) _ ?S] =>
        destruct (for_raise body (ValueError "PLL lock timeout"%string)
                    [StaRead] (range 99) 99 []) with (s := S)
          as (s' & Rl & Tl)
    end.
    - intros i s1 Hi. cbv beta.
      destruct (pll_poll i s1 _ eq_refl) as (s' & Rl & Tl).
      rewrite Hno in Rl.
      assert (Ei : (i >=? 99) = false).
      { unfold range in Hi. apply in_map_iff in Hi.
        destruct Hi as (n & <- & Hn). apply in_seq in Hn.
        change (Z.to_nat 99) with 99%nat in Hn. lia. }
      rewrite Ei in Rl. exists s'. split; [exact Rl | exact Tl].
    - intros s1. cbv beta.
      destruct (pll_poll 99 s1 _ eq_refl) as (s' & Rl & Tl).
      rewrite Hno in Rl. exists s'. split; [exact Rl | exact Tl].
    - exists s'. split.
      + now rewrite (bind_fail _ _ _ _ _ Rl).
      + rewrite Tl. traces. rewrite trace_read32. traces.
        unfold init_head_events, pll_setup_events, cfr3_word.
        rewrite !rev_app_distr, <- !app_assoc.
        change (List.concat (repeat [StaRead] (S (List.length (range 99)))))
          with (repeat StaRead 100).
        change (rev (repeat StaRead 100)) with (repeat StaRead 100).
        reflexivity. }
  destruct I as (s' & Rl & Tl).
  split; [now rewrite Rl|].
  assert (J : issued (init W self false) s =
              init_head_events W self
              ++ read32_events W self _AD9910_REG_AUX_DAC
              ++ pll_setup_events W self ++ repeat StaRead 100)
    by (apply issued_intro; now rewrite Rl).
  rewrite J. split.
  - rewrite !count_app, count_repeat_status. reflexivity.
  - unfold reg_ops. rewrite !app_assoc, reg_ops_from_status.
    unfold pll_setup_events, pll_setup_ops.
    generalize (cfr3_word self). intros c. reflexivity.
Qed.

(** X5: when the identity check passes and the lock bit shows at the first
    poll, a non-blind initialisation without a sync delay seed returns after
    that one poll; it has written the registers a blind one writes and read
    the AUX DAC register. *)
Theorem init_locked_at_once s :
  sync_delay_seed self < 0 ->
  (forall t h,
     Z.testbit (urukul_sta_pll_lock W (op_value W ((t, StaRead) :: h)))
               (chip_select self - 4) = true) ->
  fst (init W self false s) = inr tt /\
  count is_probe (issued (init W self false) s) = 1%nat /\
  reg_ops (issued (init W self false) s) =
    [RegWrite _AD9910_REG_CFR1 [0x00000002]; IoUpdate;
     RegRead _AD9910_REG_AUX_DAC] ++ pll_setup_ops self.
Proof.
  intros Hseed Hyes.
  assert (E : (sync_delay_seed self >=? 0) = false) by lia.
  assert (I : exists s',
             init W self false s = (inr tt, s') /\
             map snd (trace s') =
               rev (init_head_events W self
                    ++ read32_events W self _AD9910_REG_AUX_DAC
                    ++ pll_setup_events W self ++ [StaRead])
               ++ map snd (trace s)).
  { to_lock_wait. rewrite E.
    change (range 100) with (0 :: map Z.of_nat (seq 1 99)).
    cbn [for_]. rewrite bind_assoc.
    match goal with
    | |- context [bind ?m _ ?S] =>
        destruct (pll_poll 0 S _ eq_refl) as (s' & Rl & Tl)
    end.
    rewrite Hyes in Rl.
    rewrite (bind_done _ _ _ _ _ Rl). step.
    eexists. split; [reflexivity|].
    traces. rewrite Tl. traces. rewrite trace_read32. traces.
    unfold init_head_events, pll_setup_events, cfr3_word.
    rewrite !rev_app_distr, <- !app_assoc. reflexivity. }
  destruct I as (s' & Rl & Tl).
  split; [now rewrite Rl|].
  assert (J : issued (init W self false) s =
              init_head_events W self
              ++ read32_events W self _AD9910_REG_AUX_DAC
              ++ pll_setup_events W self ++ [StaRead])
    by (apply issued_intro; now rewrite Rl).
  rewrite J. split.
  - reflexivity.
  - unfold pll_setup_events, pll_setup_ops.
    generalize (cfr3_word self). intros c. reflexivity.
Qed.

End Init.


Lemma init_blind_witness :
  fst (init Bench.quiet Bench.channel true Bench.start) = inr tt.
Proof.
  apply (init_blind Bench.quiet Bench.channel Bench.start). cbn. lia.
Defined.

Lemma init_identity_mismatch_witness :
  fst (init Bench.quiet Bench.channel false Bench.start) =
  inl (ValueError "Urukul AD9910 AUX_DAC mismatch"%string).
Proof.
  apply (init_identity_mismatch Bench.quiet Bench.channel Bench.start).
  intros t h. cbn. discriminate.
Defined.

Lemma init_lock_timeout_witness :
  fst (init bench_unlocked Bench.channel false Bench.start) =
  inl (ValueError "PLL lock timeout"%string).
Proof.
  apply (init_lock_timeout bench_unlocked Bench.channel).
  - cbn. lia.
  - intros t h. reflexivity.
  - intros t h. reflexivity.
Defined.

Lemma init_locked_at_once_witness :
  fst (init bench_locked Bench.channel false Bench.start) = inr tt.
Proof.
  apply (init_locked_at_once bench_locked Bench.channel).
  - cbn. lia.
  - intros t h. reflexivity.
  - cbn. lia.
  - intros t h. reflexivity.
Defined.

(** X6: for parameters the constructor accepts, the CFR3 word of [init]
    holds the VCO range in bits 24 to 26, the charge pump setting in bits 19
    to 21 and the PLL multiplier in bits 1 to 7; the other bits are those of
    0x0807c100, and bit 10, the PFD reset that the first of the two writes
    sets, is clear in it. *)
Theorem cfr3_fields W self s :
  sync_delay_seed self < 0 ->
  0 <= pll_vco self <= 5 -> 0 <= pll_cp self <= 7 -> 12 <= pll_n self <= 127 ->
  exists c,
    reg_ops (issued (init W self true) s) =
      [RegWrite _AD9910_REG_CFR1 [0x00000002]; IoUpdate;
       RegWrite _AD9910_REG_CFR2 [0x01010020]; IoUpdate;
       RegWrite _AD9910_REG_CFR3 [Z.lor c 0x400]; IoUpdate;
       RegWrite _AD9910_REG_CFR3 [c]; IoUpdate] /\
    Z.land (Z.shiftr c 24) 0x7 = pll_vco self /\
    Z.land (Z.shiftr c 19) 0x7 = pll_cp self /\
    Z.land (Z.shiftr c 1) 0x7f = pll_n self /\
    Z.land c (Z.lnot 0x073800fe) = 0x0807c100 /\
    Z.testbit c 10 = false.
Proof.
  intros Hseed Hv Hc Hn.
  exists (cfr3_word self).
  split.
  { rewrite (init_blind_issued W self s Hseed).
    unfold pll_setup_events, pll_setup_ops.
    generalize (cfr3_word self). intros c. reflexivity. }
  assert (T : forallb (fun v => forallb (fun p => forallb (fun n =>
                let c := Z.lor (Z.lor (Z.lor 0x0807c100 (shl32 v 24))
                                      (shl32 p 19)) (shl32 n 1) in
                (Z.land (Z.shiftr c 24) 0x7 =? v)
                && (Z.land (Z.shiftr c 19) 0x7 =? p)
                && (Z.land (Z.shiftr c 1) 0x7f =? n)
                && (Z.land c (Z.lnot 0x073800fe) =? 0x0807c100)
                && negb (Z.testbit c 10))
                (zrange 12 116)) (zrange 0 8)) (zrange 0 6) = true)
    by (vm_compute; reflexivity).
  rewrite forallb_forall in T.
  specialize (T _ (In_zrange (pll_vco self) 6 0 ltac:(lia))).
  rewrite forallb_forall in T.
  specialize (T _ (In_zrange (pll_cp self) 8 0 ltac:(lia))).
  rewrite forallb_forall in T.
  specialize (T _ (In_zrange (pll_n self) 116 12 ltac:(lia))).
  cbv zeta in T. fold (cfr3_word self) in T.
  repeat (apply andb_prop in T; destruct T as [T ?]).
  rewrite negb_true_iff in *. repeat split; try (now apply Z.eqb_eq); assumption.
Qed.

Lemma cfr3_fields_witness :
  exists c,
    Z.land (Z.shiftr c 24) 0x7 = 5 /\ Z.land (Z.shiftr c 19) 0x7 = 7 /\
    Z.land (Z.shiftr c 1) 0x7f = 32.
Proof.
  destruct (cfr3_fields Bench.quiet Bench.channel Bench.start)
    as (c & _ & H1 & H2 & H3 & _); try (cbn; lia).
  exists c. repeat split; assumption.
Defined.


(** * More on the tuning of the sync delay at initialisation *)

(** X7: a blind initialisation with a sync delay seed runs the sync delay
    tuning and fails with its error, "no valid window/delay", when the error
    flag of this channel is asserted at every pair that is probed. *)
Theorem init_tuning_failure W self s :
  0 <= sync_delay_seed self ->
  4 <= chip_select self <= 7 ->
  (forall d w s', 0 <= d <= 31 -> 1 <= w <= 4 ->
     fst (smp_err_probe W self d w s') = inr true) ->
  fst (init W self true s) = inl (ValueError "no valid window/delay"%string).
Proof.
  intros Hseed Hc Hp.
  assert (E : (sync_delay_seed self >=? 0) = true) by lia.
  unfold init. rewrite E. cbn [negb]. step.
  match goal with
  | |- context [bind (tune_sync_delay W self ?sd) ?k ?S] =>
      destruct (tune_sync_delay_scan W self (fun _ _ => true) sd Hc Hp S)
        as (s' & R & _)
  end.
  rewrite scan_all_asserted in R. cbn [found] in R.
  now rewrite (bind_fail _ _ _ _ _ R).
Qed.

Lemma init_tuning_failure_witness :
  fst (init Bench.noisy (bench_seeded 9) true Bench.start) =
  inl (ValueError "no valid window/delay"%string).
Proof.
  apply (init_tuning_failure Bench.noisy (bench_seeded 9) Bench.start).
  - cbn. lia.
  - cbn. lia.
  - intros d w s' _ _. rewrite smp_err_probe_run. reflexivity.
Defined.

(** * More on the IO_UPDATE alignment scan *)

(** A loop returns only what its body returns. *)
Lemma for_result {R} (P : R -> Prop) (body : Z -> M (option R)) l :
  (forall i s v s', In i l -> body i s = (inr (Some v), s') -> P v) ->
  forall s v s', for_ l body s = (inr (Some v), s') -> P v.
Proof.
  induction l as [| a l IH]; intros H s v s'; cbn [for_].
  - unfold ret. congruence.
  - unfold bind at 1.
    destruct (body a s) as [[e | [v0 |]] s1] eqn:E.
    + congruence.
    + unfold ret. intros [= <- <-]. exact (H a s v0 s1 (or_introl eq_refl) E).
    + apply IH. intros i s0 v1 s2 Hi. apply H. now right.
Qed.

Lemma bind_inv {A B} (m : M A) (k : A -> M B) s b s' :
  bind m k s = (inr b, s') ->
  exists a s1, m s = (inr a, s1) /\ k a s1 = (inr b, s').
Proof.
  unfold bind. destruct (m s) as [[e | a] s1]; [congruence|].
  intros H. now exists a, s1.
Qed.

Lemma land_3_range x : 0 <= Z.land x 3 <= 3.
Proof.
  assert (E : Z.land x 3 = x mod 4)
    by (change 3 with (Z.ones 2); now rewrite Z.land_ones by lia).
  rewrite E. pose proof (Z.mod_pos_bound x 4 ltac:(lia)). lia.
Qed.

(** X8: whatever the hardware answers and whatever the configured delay,
    a delay that [tune_io_update_delay] returns lies in [0,3]. *)
Theorem tune_io_update_delay_range W self s v :
  fst (tune_io_update_delay W self s) = inr v -> 0 <= v <= 3.
Proof.
  unfold tune_io_update_delay. intros H.
  destruct (bind _ _ s) as [r s'] eqn:E in H. cbn [fst] in H. subst r.
  apply bind_inv in E. destruct E as (t0 & s0 & _ & E).
  apply bind_inv in E. destruct E as (r & s1 & E & F).
  destruct r as [v' |]; [|discriminate].
  unfold ret in F. injection F as <- <-.
  revert E. apply (for_result (fun v => 0 <= v <= 3)). intros i s2 v1 s3 _ B.
  apply bind_inv in B. destruct B as (t & s4 & _ & B).
  destruct (negb (t =? int32 t0)); [|discriminate].
  unfold ret in B. injection B as <- <-.
  change (sub32 4 1) with 3. apply land_3_range.
Qed.

Lemma tune_io_update_delay_range_witness :
  0 <= 2 <= 3.
Proof.
  apply (tune_io_update_delay_range (Bench.edge 1 0) Bench.channel Bench.start).
  vm_compute. reflexivity.
Defined.


Section AlignmentScan.

Variable W : External.
Variable self : AD9910.
Variable indicator : Z -> Z.

Hypothesis indicator_of_probe :
  forall d s, 0 <= d < 8 ->
    fst (measure_io_update_alignment W self d s) = inr (indicator d).

Hypothesis start_in_range : 0 <= io_update_delay self < 8.

(** From a start delay [d0] in [0,8) the scan compares the indicator at
    the delays [d0 + 1], ..., [d0 + 7], taken modulo 8, with that at
    [d0]. *)
Lemma tune_io_update_delay_search s :
  fst (tune_io_update_delay W self s) =
  match first_some
          (fun i =>
             if negb (indicator ((io_update_delay self + (i + 1)) mod 8)
                      =? int32 (indicator (io_update_delay self)))
             then Some ((io_update_delay self + (i + 1) + 1) mod 4) else None)
          [0; 1; 2; 3; 4; 5; 6] with
  | Some v => inr v
  | None => inl (ValueError "no IO_UPDATE-SYNC_CLK alignment edge found"%string)
  end.
Proof.
  unfold tune_io_update_delay.
  rewrite (bind_total _ _ _ _ (indicator_of_probe _ s start_in_range)).
  change (range (sub32 8 1)) with [0; 1; 2; 3; 4; 5; 6].
  match goal with
  | |- fst (bind (for_ ?l ?body) ?k ?s') = _ =>
      pose proof (for_first_some body
        (fun i =>
           if negb (indicator ((io_update_delay self + (i + 1)) mod 8)
                    =? int32 (indicator (io_update_delay self)))
           then Some ((io_update_delay self + (i + 1) + 1) mod 4) else None) l)
        as F
  end.
  match type of F with
  | ?P -> _ => assert (HP : P)
  end.
  { intros i s' Hi.
    assert (Ri : 0 <= i <= 6) by (cbn [In] in Hi; lia).
    assert (Hd : Z.land (add32 (add32 (io_update_delay self) i) 1) (sub32 8 1)
                 = (io_update_delay self + (i + 1)) mod 8).
    { unfold add32. rewrite (IntFacts.int32_small (_ + i)) by lia.
      rewrite IntFacts.int32_small by lia.
      change (sub32 8 1) with (Z.ones 3). rewrite Z.land_ones by lia.
      f_equal. lia. }
    assert (Hr : Z.land (add32 (add32 (io_update_delay self) i) (4 / 2))
                        (sub32 4 1)
                 = (io_update_delay self + (i + 1) + 1) mod 4).
    { unfold add32. rewrite (IntFacts.int32_small (_ + i)) by lia.
      change (4 / 2) with 2. rewrite IntFacts.int32_small by lia.
      change (sub32 4 1) with (Z.ones 2). rewrite Z.land_ones by lia.
      f_equal. lia. }
    rewrite Hd, Hr.
    rewrite (bind_total _ _ _ _ (indicator_of_probe _ s'
               (Z.mod_pos_bound _ 8 eq_refl))).
    destruct (negb (_ =? _)); reflexivity. }
  specialize (F HP). clear HP.
  rewrite (bind_total _ _ _ _ (F _)).
  match goal with
  | |- context [first_some ?f ?l] => destruct (first_some f l)
  end; reflexivity.
Qed.

(** X9: from a start delay [d0] in [0,8), when the indicator first differs
    from that at [d0] at the [j]-th next delay (delays taken modulo 8), the
    scan returns [(d0 + j + 1) mod 4]. *)
Theorem tune_io_update_delay_first_flip j s :
  1 <= j <= 7 ->
  (forall i, 1 <= i < j ->
     indicator ((io_update_delay self + i) mod 8)
     = int32 (indicator (io_update_delay self))) ->
  indicator ((io_update_delay self + j) mod 8)
  <> int32 (indicator (io_update_delay self)) ->
  fst (tune_io_update_delay W self s) =
  inr ((io_update_delay self + j + 1) mod 4).
Proof.
  intros Hj Hsame Hflip. rewrite tune_io_update_delay_search.
  apply Z.eqb_neq in Hflip.
  assert (Hsame' : forall i, 1 <= i < j ->
            (indicator ((io_update_delay self + i) mod 8)
             =? int32 (indicator (io_update_delay self))) = true)
    by (intros i Hi; apply Z.eqb_eq, Hsame, Hi).
  assert (J : j = 1 \/ j = 2 \/ j = 3 \/ j = 4 \/ j = 5 \/ j = 6 \/ j = 7) by lia.
  decompose [or] J; subst j; cbn [first_some Z.add Pos.add Pos.succ];
    rewrite ?Hsame' by lia; rewrite Hflip; reflexivity.
Qed.

(** X10: from a start delay in [0,8), when the indicator is the same at all
    eight delays, the scan fails with "no IO_UPDATE-SYNC_CLK alignment edge
    found". *)
Theorem tune_io_update_delay_no_flip s :
  (forall i, 1 <= i <= 7 ->
     indicator ((io_update_delay self + i) mod 8)
     = int32 (indicator (io_update_delay self))) ->
  fst (tune_io_update_delay W self s) =
  inl (ValueError "no IO_UPDATE-SYNC_CLK alignment edge found"%string).
Proof.
  intros Hsame. rewrite tune_io_update_delay_search.
  assert (Hsame' : forall i, 1 <= i <= 7 ->
            (indicator ((io_update_delay self + i) mod 8)
             =? int32 (indicator (io_update_delay self))) = true)
    by (intros i Hi; apply Z.eqb_eq, Hsame, Hi).
  cbn [first_some Z.add Pos.add Pos.succ].
  rewrite !Hsame' by lia. reflexivity.
Qed.

End AlignmentScan.

(** On the bench the alignment probe of any channel answers with the edge
    indicator. *)
Lemma edge_probe_channel self k b d s :
  b = 0 \/ b = 1 -> 0 <= d < 8 ->
  fst (measure_io_update_alignment (Bench.edge k b) self d s) =
  inr (edge_indicator k b d).
Proof.
  intros Hb Hd. unfold measure_io_update_alignment, read32. step.
  rewrite !trace_external_cons, edge_value.
  unfold ret, fst. f_equal. unfold edge_indicator.
  assert (E : (32 - sub32 32 d) mod 4 = d mod 4).
  { assert (D : d = 0 \/ d = 1 \/ d = 2 \/ d = 3 \/ d = 4 \/ d = 5 \/ d = 6 \/
                d = 7) by lia.
    intuition (subst; reflexivity). }
  rewrite E.
  destruct (d mod 4 <? k), Hb as [-> | ->]; reflexivity.
Qed.

Lemma tune_io_update_delay_first_flip_witness :
  fst (tune_io_update_delay (Bench.edge 1 0) (bench_delayed 6) Bench.start) =
  inr ((6 + 2 + 1) mod 4).
Proof.
  apply (tune_io_update_delay_first_flip (Bench.edge 1 0) (bench_delayed 6)
           (edge_indicator 1 0)
           (fun d s' Hd => edge_probe_channel _ 1 0 d s' (or_introl eq_refl) Hd)
           ltac:(cbn; lia) 2 Bench.start).
  - lia.
  - intros i Hi. assert (i = 1) as -> by lia. reflexivity.
  - vm_compute. discriminate.
Defined.

Lemma tune_io_update_delay_no_flip_witness :
  fst (tune_io_update_delay (Bench.edge 0 0) (bench_delayed 6) Bench.start) =
  inl (ValueError "no IO_UPDATE-SYNC_CLK alignment edge found"%string).
Proof.
  apply (tune_io_update_delay_no_flip (Bench.edge 0 0) (bench_delayed 6)
           (edge_indicator 0 0)
           (fun d s' Hd => edge_probe_channel _ 0 0 d s' (or_introl eq_refl) Hd)
           ltac:(cbn; lia) Bench.start).
  intros i Hi.
  assert (I : i = 1 \/ i = 2 \/ i = 3 \/ i = 4 \/ i = 5 \/ i = 6 \/ i = 7) by lia.
  decompose [or] I; subst i; reflexivity.
Defined.


(** * The alignment measurement *)

Section Pulses.

Variable W : External.
Variable self : AD9910.

Lemma pulses_write32 addr data s :
  pulse_stamps (trace (snd (write32 W self addr data s))) =
  pulse_stamps (trace s).
Proof. reflexivity. Qed.

Lemma pulses_write64 addr hi lo s :
  pulse_stamps (trace (snd (write64 W self addr hi lo s))) =
  pulse_stamps (trace s).
Proof. reflexivity. Qed.

Lemma pulses_read32 addr s :
  pulse_stamps (trace (snd (read32 W self addr s))) = pulse_stamps (trace s).
Proof. reflexivity. Qed.

Lemma pulses_pulse d s :
  pulse_stamps (trace (snd (external W (PulseMu d) s))) =
  (now s, d) :: pulse_stamps (trace s).
Proof. reflexivity. Qed.

Lemma now_mkRtio t tr : now (mkRtio t tr) = t.
Proof. reflexivity. Qed.

End Pulses.

Lemma align16 t : Z.land t (Z.lnot 0xf) mod 16 = 0.
Proof.
  rewrite <- Z.ldiff_land. change 0xf with (Z.ones 4).
  rewrite Z.ldiff_ones_r, Z.shiftl_mul_pow2 by lia.
  apply Z.mod_mul. lia.
Qed.

Lemma int64_mod16 z : int64 z mod 16 = z mod 16.
Proof.
  unfold int64, wrap.
  pose proof (Z.div_mod (z + 2 ^ (64 - 1)) (2 ^ 64) ltac:(lia)) as D.
  replace ((z + 2 ^ (64 - 1)) mod 2 ^ 64 - 2 ^ (64 - 1))
    with (z + (- ((z + 2 ^ (64 - 1)) / 2 ^ 64) * 2 ^ 60) * 16) by lia.
  apply Z.mod_add. lia.
Qed.

Lemma bind_read32 {B} W self addr (k : Z -> M B) s :
  bind (read32 W self addr) k s =
  k (op_value W (trace (snd (read32 W self addr s))))
    (snd (read32 W self addr s)).
Proof. reflexivity. Qed.

Lemma fst_ret {A} (a : A) s : fst (ret a s) = inr a.
Proof. reflexivity. Qed.

Lemma land_1_bit x : Z.land x 1 = 0 \/ Z.land x 1 = 1.
Proof.
  assert (E : Z.land x 1 = x mod 2)
    by (change 1 with (Z.ones 1); now rewrite Z.land_ones by lia).
  rewrite E. pose proof (Z.mod_pos_bound x 2 ltac:(lia)). lia.
Qed.

(** X11: one alignment measurement never raises and returns 0 or 1, the low
    bit of the word read back from the FTW register.  It issues three pulses
    on IO_UPDATE: the one that starts the ramp on a time stamp that is a
    multiple of 16 machine units, the realigning one of length
    [32 - io_up_delay] on a time stamp that is [io_up_delay] modulo 16, and a
    last one of length 8. *)
Theorem measure_io_update_alignment_pulses W self io_up_delay s :
  exists v t1 t2 t3,
    fst (measure_io_update_alignment W self io_up_delay s) = inr v /\
    (v = 0 \/ v = 1) /\
    pulse_stamps (trace (snd (measure_io_update_alignment W self io_up_delay s)))
    = (t3, 8) :: (t2, sub32 32 io_up_delay) :: (t1, 8)
      :: pulse_stamps (trace s) /\
    t1 mod 16 = 0 /\
    t2 mod 16 = io_up_delay mod 16.
Proof.
  unfold measure_io_update_alignment. step. rewrite bind_read32. step.
  do 4 eexists. split; [apply fst_ret|]. split; [apply land_1_bit|].
  split.
  - repeat first
      [ rewrite snd_ret | rewrite pulses_pulse | rewrite pulses_write32
      | rewrite pulses_write64 | rewrite pulses_read32 | rewrite trace_mkRtio
      | rewrite now_mkRtio ].
    reflexivity.
  - split; [apply align16|].
    unfold add64 at 1. rewrite int64_mod16, Zplus_mod, align16, Z.add_0_l.
    apply Z.mod_mod. lia.
Qed.

(** X12: at the level of the registers one alignment measurement is the same
    sequence for every delay under test; it ends with the ramp generator
    disabled in CFR2 and CFR1 back at the value [init] gives it; the only
    read is that of the FTW register. *)
Theorem measure_io_update_alignment_registers W self io_up_delay s :
  reg_ops (issued (measure_io_update_alignment W self io_up_delay) s) =
    alignment_ops /\
  count is_read (issued (measure_io_update_alignment W self io_up_delay) s) =
    1%nat.
Proof.
  assert (I : issued (measure_io_update_alignment W self io_up_delay) s =
              alignment_events W self io_up_delay).
  { apply issued_intro. unfold measure_io_update_alignment.
    step. rewrite bind_read32. step.
    repeat first
      [ rewrite snd_ret | rewrite trace_mkRtio | rewrite trace_external
      | rewrite trace_write32 | rewrite trace_write64 | rewrite trace_read32 ].
    unfold alignment_events.
    rewrite !rev_app_distr, <- !app_assoc. reflexivity. }
  rewrite I. split; reflexivity.
Qed.


(** * The SYNC_IN scan on any hardware *)

(** X13: whatever the hardware answers, a pair that [tune_sync_delay]
    returns has its delay tap in [0,31] and its window in [0,3]. *)
Theorem tune_sync_delay_range W self seed s d w :
  fst (tune_sync_delay W self seed s) = inr (d, w) ->
  0 <= d <= 31 /\ 0 <= w <= 3.
Proof.
  unfold tune_sync_delay. intros H.
  destruct (bind _ _ s) as [r s'] eqn:E in H. cbn [fst] in H. subst r.
  apply bind_inv in E. destruct E as (r & s1 & E & F).
  destruct r as [v |]; [|discriminate].
  unfold ret in F. injection F as -> <-.
  assert (G : 0 <= fst (d, w) <= 31 /\ 0 <= snd (d, w) <= 3); [|exact G].
  revert E.
  change (range (add32 (sub32 (add32 (14 / 4) 1) 1) 1)) with [0; 1; 2; 3].
  generalize (d, w). intros v.
  apply (for_result (fun v => 0 <= fst v <= 31 /\ 0 <= snd v <= 3)).
  intros widx s2 v1 s3 Hw.
  apply (for_result (fun v => 0 <= fst v <= 31 /\ 0 <= snd v <= 3)).
  intros i s4 v2 s5 _ B.
  match type of B with
  | (if ?c then _ else _) _ = _ => destruct c eqn:Eo; [discriminate|]
  end.
  do 5 (apply bind_inv in B; destruct B as (? & ? & _ & B)).
  match type of B with
  | (if ?c then _ else _) _ = _ => destruct c; [|discriminate]
  end.
  do 3 (apply bind_inv in B; destruct B as (? & ? & _ & B)).
  unfold ret in B. injection B as <- <-. cbn [fst snd].
  split; [lia|].
  cbn [In] in Hw. decompose [or] Hw; subst; try contradiction;
    vm_compute; split; discriminate.
Qed.

Lemma tune_sync_delay_range_witness : 0 <= 10 <= 31 /\ 0 <= 1 <= 3.
Proof.
  apply (tune_sync_delay_range (Bench.valley 10 12 2) Bench.channel 9
           Bench.start).
  vm_compute. reflexivity.
Defined.

Lemma for_none {R} (body : Z -> M (option R)) l :
  (forall i s, In i l -> body i s = (inr None, s)) ->
  forall s, for_ l body s = (inr None, s).
Proof.
  induction l as [| a l IH]; intros H s; cbn [for_]; [reflexivity|].
  unfold bind at 1. rewrite (H a s (or_introl eq_refl)).
  apply IH. intros i s' Hi. apply H. now right.
Qed.

Lemma tap_out_of_reach seed i :
  - 2 ^ 31 <= seed < 2 ^ 31 -> seed < -6 \/ 38 < seed ->
  In i (range 14) -> out_of_range (tap_at seed i) = true.
Proof.
  intros Hs Hr Hi.
  change (range 14) with [0; 1; 2; 3; 4; 5; 6; 7; 8; 9; 10; 11; 12; 13] in Hi.
  cbn [In] in Hi.
  decompose [or] Hi; try contradiction; subst i; unfold tap_at, add32;
    match goal with
    | |- context [Z.shiftr ?a 1] =>
        let v := eval vm_compute in (Z.shiftr a 1) in
        change (Z.shiftr a 1) with v
    end;
    match goal with
    | |- context [int32 ?z] => destruct (IntFacts.int32_decomp z) as [k ->]
    end;
    unfold out_of_range; lia.
Qed.

(** X14: a seed below -6 or above 38 leaves no delay tap of the scan inside
    [0,31]: [tune_sync_delay] then fails with "no valid window/delay" and has
    issued nothing and left the time cursor where it was. *)
Theorem tune_sync_delay_out_of_reach W self seed s :
  - 2 ^ 31 <= seed < 2 ^ 31 -> seed < -6 \/ 38 < seed ->
  tune_sync_delay W self seed s =
  (inl (ValueError "no valid window/delay"%string), s).
Proof.
  intros Hs Hr. unfold tune_sync_delay.
  unfold bind at 1. rewrite for_none; [reflexivity|].
  intros widx s1 _. apply for_none. intros i s2 Hi.
  fold (tap_at seed i). fold (out_of_range (tap_at seed i)).
  now rewrite tap_out_of_reach.
Qed.

Lemma tune_sync_delay_out_of_reach_witness :
  tune_sync_delay Bench.quiet Bench.channel 39 Bench.start =
  (inl (ValueError "no valid window/delay"%string), Bench.start).
Proof.
  apply (tune_sync_delay_out_of_reach Bench.quiet Bench.channel 39 Bench.start).
  - lia.
  - right. lia.
Defined.

Lemma scan_order_reach seed p :
  In p (scan_order seed) -> seed - 7 <= fst p <= seed + 6.
Proof.
  unfold scan_order, taps. rewrite in_flat_map.
  intros (w & _ & Hp). rewrite in_map_iff in Hp.
  destruct Hp as (d & <- & Hd). cbn [fst].
  rewrite filter_In, in_map_iff in Hd. destruct Hd as [(o & <- & Ho) _].
  cbn [tap_offsets In] in Ho. lia.
Qed.

Lemma find_none_all {A} (f : A -> bool) l :
  (forall x, In x l -> f x = false) -> find f l = None.
Proof.
  induction l as [| a l IH]; intros H; cbn [find]; [reflexivity|].
  rewrite (H a (or_introl eq_refl)). apply IH. intros x Hx. apply H. now right.
Qed.

(** X15: the scan reaches from 7 taps below the seed to 6 above it and no
    further.  When the flag of the channel is asserted at every tap in that
    reach, at every window, [tune_sync_delay] fails with "no valid
    window/delay", whatever the flag is at the taps outside. *)
Theorem tune_sync_delay_reach W self err seed s :
  4 <= chip_select self <= 7 ->
  - 2 ^ 31 + 7 <= seed <= 2 ^ 31 - 7 ->
  (forall d w s', 0 <= d <= 31 -> 1 <= w <= 4 ->
     fst (smp_err_probe W self d w s') = inr (err d w)) ->
  (forall d w, seed - 7 <= d <= seed + 6 -> err d w = true) ->
  fst (tune_sync_delay W self seed s) =
  inl (ValueError "no valid window/delay"%string).
Proof.
  intros Hc Hs Hp He.
  destruct (tune_sync_delay_scan W self err seed Hc Hp s) as (s' & R & _).
  rewrite (loop_order_scan_order seed Hs) in R.
  rewrite R, scan_find, find_none_all; [reflexivity|].
  intros p Hi. rewrite He; [reflexivity|]. now apply scan_order_reach.
Qed.

Lemma tune_sync_delay_reach_witness :
  fst (tune_sync_delay (Bench.valley 20 25 4) Bench.channel 9 Bench.start) =
  inl (ValueError "no valid window/delay"%string).
Proof.
  apply (tune_sync_delay_reach (Bench.valley 20 25 4) Bench.channel
           (Bench.valley_err 20 25 4) 9 Bench.start).
  - cbn. lia.
  - lia.
  - intros d w s' Hd Hw. now apply valley_probe.
  - intros d w Hd. unfold Bench.valley_err.
    replace (20 <=? d) with false by lia. reflexivity.
Defined.


(** * Words and fields *)

(** X16: for a delay tap in [0,31] and a window in [0,15], [set_sync] is one
    write of the MSYNC register; the word holds the tap in bits 3 to 7, the
    window in bits 28 to 31, the receiver enable bit 27, and nothing else. *)
Theorem set_sync_fields W self in_delay window s :
  0 <= in_delay <= 31 -> 0 <= window <= 15 ->
  exists m,
    fst (set_sync W self in_delay window s) = inr tt /\
    reg_ops (issued (set_sync W self in_delay window) s) =
      [RegWrite _AD9910_REG_MSYNC [m]] /\
    Z.land (Z.shiftr m 3) 0x1f = in_delay /\
    Z.land (Z.shiftr m 28) 0xf = window /\
    Z.testbit m 27 = true /\
    Z.land m 0x07ffff07 = 0.
Proof.
  intros Hd Hw. exists (msync_word in_delay window).
  split; [reflexivity|]. split.
  - rewrite (issued_intro _ _ _ (trace_set_sync W self in_delay window s)).
    reflexivity.
  - assert (T : forallb (fun d => forallb (fun w =>
                  let m := msync_word d w in
                  (Z.land (Z.shiftr m 3) 0x1f =? d)
                  && (Z.land (Z.shiftr m 28) 0xf =? w)
                  && Z.testbit m 27
                  && (Z.land m 0x07ffff07 =? 0))
                  (zrange 0 16)) (zrange 0 32) = true)
      by (vm_compute; reflexivity).
    rewrite forallb_forall in T.
    specialize (T _ (In_zrange in_delay 32 0 ltac:(lia))).
    rewrite forallb_forall in T.
    specialize (T _ (In_zrange window 16 0 ltac:(lia))).
    cbv zeta in T.
    repeat (apply andb_prop in T; destruct T as [T ?]).
    repeat split; try (now apply Z.eqb_eq); assumption.
Qed.

Lemma set_sync_fields_witness :
  exists m,
    Z.land (Z.shiftr m 3) 0x1f = 9 /\ Z.land (Z.shiftr m 28) 0xf = 12.
Proof.
  destruct (set_sync_fields Bench.quiet Bench.channel 9 12 Bench.start)
    as (m & _ & _ & H1 & H2 & _); try lia.
  exists m. split; assumption.
Defined.

(** X17: for power-down bits in [0,15], [power_down] is one write of CFR1
    followed by one update pulse; the word holds the bits in bits 4 to 7 and
    keeps bit 1, which [init] sets, and nothing else. *)
Theorem power_down_word W self bits s :
  0 <= bits <= 15 ->
  fst (power_down W self bits s) = inr tt /\
  reg_ops (issued (power_down W self bits) s) =
    [RegWrite _AD9910_REG_CFR1 [2 + 16 * bits]; IoUpdate].
Proof.
  intros Hb. split; [reflexivity|].
  assert (E : Z.lor 0x00000002 (shl32 bits 4) = 2 + 16 * bits).
  { assert (T : forallb (fun b => Z.lor 0x00000002 (shl32 b 4) =? 2 + 16 * b)
                  (zrange 0 16) = true) by (vm_compute; reflexivity).
    rewrite forallb_forall in T.
    apply Z.eqb_eq, T, In_zrange. lia. }
  assert (I : issued (power_down W self bits) s =
              write32_events W self _AD9910_REG_CFR1 (2 + 16 * bits)
              ++ [Pulse 1]).
  { apply issued_intro. unfold power_down. rewrite E. step. traces.
    rewrite rev_app_distr. reflexivity. }
  rewrite I. reflexivity.
Qed.

Lemma power_down_word_witness :
  reg_ops (issued (power_down Bench.quiet Bench.channel 15) Bench.start) =
  [RegWrite _AD9910_REG_CFR1 [2 + 16 * 15]; IoUpdate].
Proof.
  apply (power_down_word Bench.quiet Bench.channel 15 Bench.start). lia.
Defined.

(** * The phase word that [set_mu] returns *)

Lemma shiftr16_range y :
  - 2 ^ 31 <= y < 2 ^ 31 -> - 2 ^ 15 <= Z.shiftr y 16 < 2 ^ 15.
Proof.
  intros H. rewrite Z.shiftr_div_pow2 by lia.
  pose proof (Z.div_mod y (2 ^ 16) ltac:(lia)).
  pose proof (Z.mod_pos_bound y (2 ^ 16) ltac:(lia)). lia.
Qed.

Lemma inr_inj {E A} (a b : A) : @inr E A a = inr b -> a = b.
Proof. congruence. Qed.

(** X18: for a 16-bit phase word [pow], in every phase mode, [set_mu]
    returns [pow] plus a correction of at least -2^15 and less than 2^15: the
    returned word lies in [-2^15, 2^16 + 2^15) and is not brought back into
    16 bits. *)
Theorem set_mu_word_range W self ftw pow asf mode ref_time s r :
  0 <= pow < 2 ^ 16 ->
  fst (set_mu W self ftw pow asf mode ref_time s) = inr r ->
  - 2 ^ 15 <= r - pow < 2 ^ 15.
Proof.
  intros Hp Hr.
  destruct (Z.eq_dec (effective_phase_mode self mode) PHASE_MODE_CONTINUOUS)
    as [Ec | Ec].
  { destruct (set_mu_continuous W self ftw pow asf mode ref_time s Ec)
      as [H _].
    assert (r = pow) by congruence. lia. }
  destruct (Z.eq_dec (effective_phase_mode self mode) PHASE_MODE_TRACKING)
    as [Et | Et]; [|destruct (Z_lt_le_dec ref_time 0) as [En | En]].
  - destruct (set_mu_corrected W self ftw pow asf mode ref_time s Ec
                (or_introl Et)) as [H _].
    rewrite H in Hr. apply inr_inj in Hr. subst r.
    match goal with
    | |- context [Z.shiftr (int32 ?y) 16] =>
        pose proof (shiftr16_range (int32 y) (IntFacts.int32_range y))
    end.
    rewrite IntFacts.int32_small by lia. lia.
  - destruct (set_mu_uncorrected W self ftw pow asf mode ref_time s Ec Et En)
      as [H _].
    assert (r = pow) by congruence. lia.
  - destruct (set_mu_corrected W self ftw pow asf mode ref_time s Ec
                (or_intror En)) as [H _].
    rewrite H in Hr. apply inr_inj in Hr. subst r.
    match goal with
    | |- context [Z.shiftr (int32 ?y) 16] =>
        pose proof (shiftr16_range (int32 y) (IntFacts.int32_range y))
    end.
    rewrite IntFacts.int32_small by lia. lia.
Qed.

Lemma set_mu_word_range_witness : - 2 ^ 15 <= 66743 - 0xffff < 2 ^ 15.
Proof.
  apply (set_mu_word_range Bench.quiet Bench.channel 65536 0xffff 0x3ffe
           PHASE_MODE_TRACKING (-1) Bench.start 66743).
  - lia.
  - vm_compute. reflexivity.
Defined.


(** * The time stamps of [set_mu] *)

Section History.

Variable W : External.
Variable self : AD9910.

Lemma appends_ret {A} (a : A) : appends (ret a).
Proof. intros s. now exists []. Qed.

Lemma appends_now_mu : appends now_mu.
Proof. intros s. now exists []. Qed.

Lemma appends_at_mu t : appends (at_mu t).
Proof. intros s. now exists []. Qed.

Lemma appends_delay_mu d : appends (delay_mu d).
Proof. intros s. now exists []. Qed.

Lemma appends_external ev : appends (external W ev).
Proof. intros s. now exists [(now s, ev)]. Qed.

Lemma appends_bind {A B} (m : M A) (k : A -> M B) :
  appends m -> (forall a, appends (k a)) -> appends (bind m k).
Proof.
  intros Hm Hk s. unfold bind. specialize (Hm s).
  destruct (m s) as [[e | a] s1]; cbn [snd] in Hm; [exact Hm|].
  destruct Hm as [n1 E1], (Hk a s1) as [n2 E2].
  exists (n2 ++ n1). now rewrite E2, E1, app_assoc.
Qed.

Lemma opens_external ev : opens ev (external W ev).
Proof. intros s. now exists []. Qed.

Lemma opens_bind {A B} ev (m : M A) (k : A -> M B) :
  opens ev m -> (forall a, appends (k a)) -> opens ev (bind m k).
Proof.
  intros Hm Hk s. unfold bind. specialize (Hm s).
  destruct (m s) as [[e | a] s1]; cbn [snd] in Hm; [exact Hm|].
  destruct Hm as [n1 E1], (Hk a s1) as [n2 E2].
  exists (n2 ++ n1). now rewrite E2, E1, app_assoc.
Qed.

Lemma opens_bind_ret {A B} ev (a : A) (k : A -> M B) :
  opens ev (k a) -> opens ev (bind (ret a) k).
Proof. intros H. exact H. Qed.

Lemma appends_write32 addr data : appends (write32 W self addr data).
Proof.
  unfold write32.
  repeat first [ apply appends_bind; [|intros ?] | apply appends_external
               | apply appends_ret ].
Qed.

Lemma appends_write64 addr hi lo : appends (write64 W self addr hi lo).
Proof.
  unfold write64.
  repeat first [ apply appends_bind; [|intros ?] | apply appends_external
               | apply appends_ret ].
Qed.

Lemma opens_write32 addr data :
  opens (SetConfigMu (SPI_CONFIG W) 8 (SPIT_DDS_WR W) (chip_select self))
        (write32 W self addr data).
Proof.
  unfold write32. apply opens_bind; [apply opens_external|]. intros _.
  repeat first [ apply appends_bind; [|intros ?] | apply appends_external
               | apply appends_ret ].
Qed.

Lemma opens_write64 addr hi lo :
  opens (SetConfigMu (SPI_CONFIG W) 8 (SPIT_DDS_WR W) (chip_select self))
        (write64 W self addr hi lo).
Proof.
  unfold write64. apply opens_bind; [apply opens_external|]. intros _.
  repeat first [ apply appends_bind; [|intros ?] | apply appends_external
               | apply appends_ret ].
Qed.

End History.

Create HintDb history.

#[local] Hint Resolve appends_ret appends_now_mu appends_at_mu appends_delay_mu
  appends_external appends_write32 appends_write64 : history.

Ltac history :=
  repeat first
    [ apply appends_bind; [|intros ?]
    | match goal with
      | |- appends (if ?c then _ else _) => destruct c
      end
    | solve [auto with history] ].

Lemma round_down_16 t :
  Z.land t (Z.lnot 0xf) mod 16 = 0 /\ t - 15 <= Z.land t (Z.lnot 0xf) <= t.
Proof.
  split; [apply align16|].
  assert (E : Z.land t (Z.lnot 0xf) = t / 2 ^ 4 * 2 ^ 4).
  { rewrite <- Z.ldiff_land. change 0xf with (Z.ones 4).
    now rewrite Z.ldiff_ones_r, Z.shiftl_mul_pow2, Z.shiftr_div_pow2 by lia. }
  rewrite E.
  pose proof (Z.div_mod t (2 ^ 4) ltac:(lia)).
  pose proof (Z.mod_pos_bound t (2 ^ 4) ltac:(lia)). lia.
Qed.

(** X19: in every phase mode the first call that [set_mu] makes, the
    configuration of the bus for the address phase of its first register
    write, is issued with the time cursor moved back to the last multiple of
    16 machine units, up to 15 machine units before the cursor at the
    call. *)
Theorem set_mu_start W self ftw pow asf mode ref_time s :
  exists new t,
    trace (snd (set_mu W self ftw pow asf mode ref_time s)) =
    new ++ (t, SetConfigMu (SPI_CONFIG W) 8 (SPIT_DDS_WR W) (chip_select self))
        :: trace s /\
    t mod 16 = 0 /\ now s - 15 <= t <= now s.
Proof.
  unfold set_mu. rewrite bind_now_mu, bind_at_mu.
  match goal with
  | |- context [snd (?m (mkRtio ?t (trace s)))] =>
      assert (O : opens (SetConfigMu (SPI_CONFIG W) 8 (SPIT_DDS_WR W)
                                     (chip_select self)) m)
  end.
  { destruct (negb (_ =? PHASE_MODE_CONTINUOUS)); cbv iota.
    - apply opens_bind; [apply opens_bind; [apply opens_write32|]|];
        intros; history.
    - apply opens_bind_ret.
      apply opens_bind; [apply opens_write64|]. intros; history. }
  destruct (O (mkRtio (Z.land (now s) (Z.lnot 0xf)) (trace s))) as [new E].
  exists new, (Z.land (now s) (Z.lnot 0xf)).
  split; [exact E | apply round_down_16].
Qed.

(** X20: in Continuous mode [set_mu] leaves the time cursor on a multiple of
    16 machine units. *)
Theorem set_mu_continuous_end W self ftw pow asf mode ref_time s :
  effective_phase_mode self mode = PHASE_MODE_CONTINUOUS ->
  now (snd (set_mu W self ftw pow asf mode ref_time s)) mod 16 = 0.
Proof.
  unfold effective_phase_mode. intros E. unfold set_mu. rewrite E.
  change (negb (PHASE_MODE_CONTINUOUS =? PHASE_MODE_CONTINUOUS)) with false.
  cbv iota. step. rewrite snd_ret, now_mkRtio. apply align16.
Qed.

Lemma set_mu_continuous_end_witness :
  now (snd (set_mu Bench.quiet Bench.channel 65536 0 0x3ffe
              _PHASE_MODE_DEFAULT (-1) Bench.start)) mod 16 = 0.
Proof.
  apply (set_mu_continuous_end Bench.quiet Bench.channel). reflexivity.
Defined.


(** * Phase words and turns *)

(** X21: a phase word that [set_mu] can return for a 16-bit request, from
    -2^15 up to 2^16 + 2^15, survives the conversion to turns and back. *)
Theorem pow_turns_round_trip pow :
  - 2 ^ 15 <= pow < 2 ^ 16 + 2 ^ 15 ->
  turns_to_pow (pow_to_turns pow) = inr pow.
Proof.
  intros H.
  assert (T : forallb (fun p =>
                match turns_to_pow (pow_to_turns p) with
                | inr q => q =? p
                | inl _ => false
                end) (zrange (- 2 ^ 15) (Z.to_nat (2 ^ 17))) = true)
    by (vm_compute; reflexivity).
  rewrite forallb_forall in T.
  assert (I : In pow (zrange (- 2 ^ 15) (Z.to_nat (2 ^ 17))))
    by (apply In_zrange; lia).
  specialize (T pow I).
  destruct (turns_to_pow (pow_to_turns pow)) as [e | q]; [discriminate|].
  apply Z.eqb_eq in T. now subst q.
Qed.

Lemma pow_turns_round_trip_witness :
  turns_to_pow (pow_to_turns 66743) = inr 66743.
Proof.
  apply (pow_turns_round_trip 66743). lia.
Defined.


(** * What the constructor guarantees *)

Lemma assert_inv b s s' : assert b s = (inr tt, s') -> b = true /\ s' = s.
Proof.
  unfold assert. destruct b; unfold ret, raise; intros H;
    [split; congruence | discriminate].
Qed.

Lemma lift_inv {A} (r : exn + A) s a s' :
  lift r s = (inr a, s') -> r = inr a /\ s' = s.
Proof.
  unfold lift. destruct r; unfold ret, raise; intros H;
    [discriminate | split; congruence].
Qed.

(** X22: a channel object that the constructor returns was checked: chip
    select in [3,7], multiplier in [12,127], VCO band in [0,5], charge pump
    current in [0,7], system clock at most 1 GHz and inside the VCO band, a
    whole number of system clock ticks per machine unit; it starts in
    Continuous phase mode, and nothing was issued. *)
Theorem constructor_checked W chip_select' pll_n' pll_cp' pll_vco' sync_delay_seed'
  io_update_delay' s obj s' :
  __init__ W chip_select' pll_n' pll_cp' pll_vco' sync_delay_seed'
           io_update_delay' s = (inr obj, s') ->
  s' = s /\
  obj = mkAD9910 chip_select' pll_n' pll_cp' pll_vco'
          (float_of_int (Z.shiftl 1 32) / sysclk_of W pll_n')%float
          (sysclk_per_mu obj) sync_delay_seed' io_update_delay'
          PHASE_MODE_CONTINUOUS /\
  3 <= chip_select' <= 7 /\ 12 <= pll_n' <= 127 /\
  0 <= pll_vco' <= 5 /\ 0 <= pll_cp' <= 7 /\
  (sysclk_of W pll_n' <=? 1e9)%float = true /\
  in_band pll_vco' (sysclk_of W pll_n') = true /\
  int_eq_float (sysclk_per_mu obj) (sysclk_of W pll_n' * ref_period W)%float
  = true.
Proof.
  intros H. unfold __init__ in H. fold (sysclk_of W pll_n') in H.
  apply bind_inv in H. destruct H as ([] & s1 & H1 & H).
  apply assert_inv in H1. destruct H1 as [H1 ->].
  apply bind_inv in H. destruct H as ([] & s2 & H2 & H).
  apply assert_inv in H2. destruct H2 as [H2 ->].
  apply bind_inv in H. destruct H as ([] & s3 & H3 & H).
  apply assert_inv in H3. destruct H3 as [H3 ->].
  apply bind_inv in H. destruct H as ([] & s4 & H4 & H).
  apply assert_inv in H4. destruct H4 as [H4 ->].
  apply bind_inv in H. destruct H as (f & s5 & H5 & H).
  apply lift_inv in H5. destruct H5 as [H5 ->].
  apply bind_inv in H. destruct H as (n & s6 & H6 & H).
  apply lift_inv in H6. destruct H6 as [H6 ->].
  apply bind_inv in H. destruct H as ([] & s7 & H7 & H).
  apply assert_inv in H7. destruct H7 as [H7 ->].
  apply bind_inv in H. destruct H as ([] & s8 & H8 & H).
  apply assert_inv in H8. destruct H8 as [H8 ->].
  assert (B : in_band pll_vco' (sysclk_of W pll_n') = true /\
              exists s9, bind (assert ((0 <=? pll_cp') && (pll_cp' <=? 7)))
                (fun _ => ret (mkAD9910 chip_select' pll_n' pll_cp' pll_vco' f n
                                 sync_delay_seed' io_update_delay'
                                 PHASE_MODE_CONTINUOUS)) s9 = (inr obj, s')
                         /\ s9 = s).
  { unfold in_band. rewrite H8. cbn [andb].
    destruct (nth (Z.to_nat pll_vco') vco_bands (0, 0)) as [vco_min vco_max].
    apply bind_inv in H. destruct H as ([] & s9 & H9 & H).
    apply assert_inv in H9. destruct H9 as [H9 ->].
    split; [exact H9|]. now exists s. }
  clear H. destruct B as (B & s9 & H & ->).
  apply bind_inv in H. destruct H as ([] & s10 & H10 & H).
  apply assert_inv in H10. destruct H10 as [H10 ->].
  unfold ret in H. injection H as <- <-.
  unfold truediv in H5. destruct (_ =? 0)%float; [discriminate|].
  injection H5 as <-.
  cbn [sysclk_per_mu].
  repeat split; try lia; assumption.
Qed.

Lemma constructor_checked_witness :
  3 <= 4 <= 7 /\ 12 <= 32 <= 127 /\ 0 <= 5 <= 5 /\ 0 <= 7 <= 7.
Proof.
  destruct (constructor_checked Bench.quiet 4 32 7 5 (-1) 0 Bench.start
              Bench.channel Bench.start) as (_ & _ & H1 & H2 & H3 & H4 & _).
  - vm_compute. reflexivity.
  - repeat split; lia.
Defined.
